(** * BarcodeSearch: a shallow embedding of [src/components/BarcodeSearch.tsx]

    The component keeps four pieces of React state ([barcode], [products],
    [loading], [error]), runs one asynchronous handler ([searchProducts]),
    formats prices with [Intl.NumberFormat] and returns a tree of React
    elements.  The handler is written here in a small state-and-exception
    monad whose world records the component state, every state the setters
    produced, the toasts shown and the requests sent; the element tree is an
    inductive type whose leaves are the JavaScript values the JSX expression
    containers evaluate to. *)

From Stdlib Require Import List String Ascii Bool Arith NArith ZArith QArith Lia.
From Stdlib Require Import DecimalString DecimalN DecimalPos.
Import ListNotations.

Set Implicit Arguments.

(** ** JavaScript strings

    A JavaScript string is a sequence of UTF-16 code units (numbers below
    65536).  Every string literal of the component is ASCII, so literals are
    written as Rocq strings and injected with [lit]. *)

Definition jsstring := list N.

Definition lit (s : string) : jsstring :=
  List.map N_of_ascii (list_ascii_of_string s).

(** A string is falsy exactly when it is empty. *)
Definition truthy_string (s : jsstring) : bool :=
  match s with
  | [] => false
  | _ :: _ => true
  end.

(** ECMAScript [WhiteSpace] and [LineTerminator] code points, the set that
    [String.prototype.trim] strips. *)
Definition is_white_space (c : N) : bool :=
  ((9 <=? c) && (c <=? 13)           (* TAB, LF, VT, FF, CR *)
   || (c =? 32)                      (* SPACE *)
   || (c =? 160)                     (* NO-BREAK SPACE *)
   || (c =? 5760)                    (* OGHAM SPACE MARK *)
   || ((8192 <=? c) && (c <=? 8202)) (* EN QUAD .. HAIR SPACE *)
   || (c =? 8232) || (c =? 8233)     (* LINE / PARAGRAPH SEPARATOR *)
   || (c =? 8239)                    (* NARROW NO-BREAK SPACE *)
   || (c =? 8287)                    (* MEDIUM MATHEMATICAL SPACE *)
   || (c =? 12288)                   (* IDEOGRAPHIC SPACE *)
   || (c =? 65279))%N.               (* ZERO WIDTH NO-BREAK SPACE *)

Fixpoint trimStart (s : jsstring) : jsstring :=
  match s with
  | [] => []
  | c :: rest => if is_white_space c then trimStart rest else s
  end.

Definition trimEnd (s : jsstring) : jsstring :=
  rev (trimStart (rev s)).

Definition trim (s : jsstring) : jsstring :=
  trimEnd (trimStart s).

(** [Number.prototype.toString] (radix 10) on a non-negative integer, as
    used by the template literals of the component. *)
Definition toString (n : N) : string :=
  NilZero.string_of_uint (N.to_uint n).

(** Substring test ([String.prototype.includes]). *)
Fixpoint starts_with (p s : jsstring) : bool :=
  match p, s with
  | [], _ => true
  | _ :: _, [] => false
  | a :: p', b :: s' => (a =? b)%N && starts_with p' s'
  end.

Fixpoint includes (s p : jsstring) : bool :=
  starts_with p s ||
  match s with
  | [] => false
  | _ :: s' => includes s' p
  end.

(** ** [encodeURIComponent]

    Unreserved code units are kept; every other code point is written as
    the percent-escapes of its UTF-8 bytes.  A lone surrogate makes the
    function throw a [URIError] ([None] here). *)

Definition uri_unreserved (c : N) : bool :=
  ((65 <=? c) && (c <=? 90)          (* A-Z *)
   || ((97 <=? c) && (c <=? 122))    (* a-z *)
   || ((48 <=? c) && (c <=? 57))     (* 0-9 *)
   || (c =? 45) || (c =? 95) || (c =? 46) || (c =? 33) (* - _ . ! *)
   || (c =? 126) || (c =? 42) || (c =? 39)             (* ~ * ' *)
   || (c =? 40) || (c =? 41))%N.                       (* ( ) *)

Definition hex_digit (d : N) : N :=
  (if d <? 10 then 48 + d else 55 + d)%N.

Definition percent_byte (b : N) : jsstring :=
  [37; hex_digit (b / 16); hex_digit (b mod 16)]%N.

Definition utf8 (cp : N) : list N :=
  (if cp <? 128 then [cp]
   else if cp <? 2048 then [192 + cp / 64; 128 + cp mod 64]
   else if cp <? 65536 then
     [224 + cp / 4096; 128 + (cp / 64) mod 64; 128 + cp mod 64]
   else
     [240 + cp / 262144; 128 + (cp / 4096) mod 64;
      128 + (cp / 64) mod 64; 128 + cp mod 64])%N.

Definition percent_encode (cp : N) : jsstring :=
  flat_map percent_byte (utf8 cp).

Definition is_high_surrogate (c : N) : bool := ((55296 <=? c) && (c <=? 56319))%N.
Definition is_low_surrogate (c : N) : bool := ((56320 <=? c) && (c <=? 57343))%N.

Fixpoint encodeURIComponent (s : jsstring) : option jsstring :=
  match s with
  | [] => Some []
  | c :: rest =>
      if uri_unreserved c then
        option_map (cons c) (encodeURIComponent rest)
      else if is_low_surrogate c then None
      else if is_high_surrogate c then
        match rest with
        | c2 :: rest' =>
            if is_low_surrogate c2 then
              option_map
                (app (percent_encode
                        ((c - 55296) * 1024 + (c2 - 56320) + 65536)%N))
                (encodeURIComponent rest')
            else None
        | [] => None
        end
      else
        option_map (app (percent_encode c)) (encodeURIComponent rest)
  end.

(** ** JavaScript numbers

    A finite number is modelled by a rational: the value of the decimal
    that [Number.prototype.toString] writes for it, the shortest one that
    reads back as the same double.  This is the decimal the engine's
    number formatter starts from; for an integer below 2^53 and for a
    short decimal such as 1234.5 it is the value itself.  Negative zero,
    NaN and the infinities are separate values. *)

Inductive number : Type :=
  | Num (q : Q)
  | NegZero
  | NaN
  | Infinity (negative : bool).

Definition of_nat (n : nat) : number := Num (inject_Z (Z.of_nat n)).

(** [x === 0] *)
Definition strict_eq_zero (x : number) : bool :=
  match x with
  | Num q => (Qnum q =? 0)%Z
  | NegZero => true
  | NaN | Infinity _ => false
  end.

(** [ToBoolean] on a number: 0, -0 and NaN are falsy. *)
Definition truthy_number (x : number) : bool :=
  match x with
  | Num q => negb (Qnum q =? 0)%Z
  | NegZero | NaN => false
  | Infinity _ => true
  end.

(** A property that may be missing from a parsed JSON object
    ([undefined]), be [null], or hold a value. *)
Inductive maybe (A : Type) : Type :=
  | undefined
  | null
  | value (a : A).

Arguments undefined {A}.
Arguments null {A}.
Arguments value {A} a.

(** ** The data transfer objects (interfaces [PriceTier], [Product],
    [ApiResponse]) *)

Module PriceTier.
Record t : Type := make { qty : number; price : number }.
End PriceTier.

Module Product.
Record t : Type := make {
  id : number;
  name : jsstring;
  sku : jsstring;
  barcode : jsstring;
  cogs : number;
  selling_price : number;
  selling_price_2 : maybe number;
  stock : number;
  price_tiers : maybe (list PriceTier.t)
}.
End Product.

Module ApiResponse.
Record t : Type := make {
  status : jsstring;
  products : maybe (list Product.t)
}.
End ApiResponse.

(** What a response body can parse to: [null], an object, or a value
    without own properties of interest (a number, a string, a boolean or
    an array).  The object is read through the interface [ApiResponse]. *)
Inductive parsed : Type :=
  | JsonNull
  | JsonObject (data : ApiResponse.t)
  | JsonOther.

(** [data.products]: reading a property of [null] throws a [TypeError]
    ([None] here); a number, string, boolean or array has no [products]
    property. *)
Definition get_products (data : parsed) : option (maybe (list Product.t)) :=
  match data with
  | JsonNull => None
  | JsonObject o => Some (ApiResponse.products o)
  | JsonOther => Some undefined
  end.

(** ** What the environment hands to the handler *)

(** A thrown value: an [Error] instance with its [message], or anything
    else. *)
Inductive thrown : Type :=
  | ErrorObject (message : jsstring)
  | NonError.

(** The outcome of awaiting a promise. *)
Inductive settled (A : Type) : Type :=
  | Fulfilled (a : A)
  | Rejected (e : thrown)
  | NeverSettles.

Arguments Fulfilled {A} a.
Arguments Rejected {A} e.
Arguments NeverSettles {A}.

Module Response.
(** [status] is the HTTP status code and [json] the outcome of
    [response.json()]. *)
Record t : Type := make {
  status : N;
  json : settled parsed
}.

(** [response.ok]: the status is in the range 200-299. *)
Definition ok (r : t) : bool :=
  ((200 <=? status r) && (status r <=? 299))%N.
End Response.

(** ** Component state and the world of the handler *)

Module State.
(** The four [useState] cells of [BarcodeSearch]. *)
Record t : Type := make {
  barcode : jsstring;
  products : list Product.t;
  loading : bool;
  error : jsstring
}.

(** Initial values passed to [useState]. *)
Definition initial : t := make [] [] false [].
End State.

Module Toast.
Record t : Type := make {
  title : jsstring;
  description : jsstring;
  variant : option jsstring
}.
End Toast.

Module World.
(** [state] is the current component state, [history] lists the state
    after each setter call (oldest first), [toasts] the notifications
    shown and [requests] the URLs passed to [fetch], both oldest first. *)
Record t : Type := make {
  state : State.t;
  history : list State.t;
  toasts : list Toast.t;
  requests : list jsstring
}.

Definition start (s : State.t) : t := make s [] [] [].
End World.

(** The state the three setters at the start of a search leave. *)
Definition reset_state (s : State.t) : State.t :=
  State.make (State.barcode s) [] true [].

(** ** A monad for the handler: state, exceptions and suspension *)

Inductive completion (A : Type) : Type :=
  | Normal (a : A)
  | Throw (e : thrown)
  | Suspended.

Arguments Normal {A} a.
Arguments Throw {A} e.
Arguments Suspended {A}.

Definition M (A : Type) : Type := World.t -> completion A * World.t.

Definition ret {A} (a : A) : M A := fun w => (Normal a, w).

Definition bind {A B} (c : M A) (k : A -> M B) : M B :=
  fun w =>
    match c w with
    | (Normal a, w') => k a w'
    | (Throw e, w') => (Throw e, w')
    | (Suspended, w') => (Suspended, w')
    end.

Definition throw {A} (e : thrown) : M A := fun w => (Throw e, w).

Declare Scope js_scope.
Delimit Scope js_scope with js_m.
Notation "x <- c ;; k" := (bind c (fun x => k))
  (at level 100, c at next level, right associativity) : js_scope.
Notation "c ;; k" := (bind c (fun _ => k))
  (at level 100, right associativity) : js_scope.
Local Open Scope js_scope.

(** [await p]: resume with the value, throw the rejection reason, or stay
    suspended for ever. *)
Definition await {A} (p : settled A) : M A :=
  match p with
  | Fulfilled a => ret a
  | Rejected e => throw e
  | NeverSettles => fun w => (Suspended, w)
  end.

(** [try { body } catch (err) { handler } finally { final }].  The
    [finally] block runs after the body or the handler completed, normally
    or not; a handler that is still suspended never reaches it. *)
Definition try_catch_finally {A} (body : M A) (handler : thrown -> M A)
    (final : M unit) : M A :=
  fun w =>
    let '(c1, w1) :=
      match body w with
      | (Throw e, w') => handler e w'
      | other => other
      end in
    match c1 with
    | Suspended => (Suspended, w1)
    | _ =>
        match final w1 with
        | (Normal _, w2) => (c1, w2)
        | (Throw e, w2) => (Throw e, w2)
        | (Suspended, w2) => (Suspended, w2)
        end
    end.

(** The state setters: each call makes a new component state. *)
Definition update (f : State.t -> State.t) : M unit :=
  fun w =>
    let s := f (World.state w) in
    (Normal tt,
     World.make s (World.history w ++ [s]) (World.toasts w) (World.requests w)).

Definition setProducts (ps : list Product.t) : M unit :=
  update (fun s => State.make (State.barcode s) ps (State.loading s) (State.error s)).

Definition setLoading (b : bool) : M unit :=
  update (fun s => State.make (State.barcode s) (State.products s) b (State.error s)).

Definition setError (e : jsstring) : M unit :=
  update (fun s => State.make (State.barcode s) (State.products s) (State.loading s) e).

Definition toast (t : Toast.t) : M unit :=
  fun w =>
    (Normal tt,
     World.make (World.state w) (World.history w) (World.toasts w ++ [t])
       (World.requests w)).

(** Message of the [URIError] thrown by [encodeURIComponent] (the text V8
    uses). *)
Definition URIError_message : jsstring := lit "URI malformed".

(** Message of the [TypeError] thrown when a property of [null] is read
    (the text V8 uses). *)
Definition TypeError_message : jsstring :=
  lit "Cannot read properties of null (reading 'products')".

Definition get_products_m (data : parsed) : M (maybe (list Product.t)) :=
  match get_products data with
  | Some products => ret products
  | None => throw (ErrorObject TypeError_message)
  end.

Definition encodeURIComponent_m (s : jsstring) : M jsstring :=
  match encodeURIComponent s with
  | Some e => ret e
  | None => throw (ErrorObject URIError_message)
  end.

Section Handler.

(** The network: what the promise returned by [fetch url] settles to. *)
Variable network : jsstring -> settled Response.t.

Definition fetch (url : jsstring) : M (settled Response.t) :=
  fun w =>
    (Normal (network url),
     World.make (World.state w) (World.history w) (World.toasts w)
       (World.requests w ++ [url])).

Definition endpoint : jsstring :=
  lit "https://hw.blicyber.web.id/admin/products/barcode?barcode=".

Definition warning_toast : Toast.t :=
  Toast.make (lit "Please enter a barcode")
    (lit "Enter a product barcode to search") (Some (lit "destructive")).

Definition not_found_message : jsstring :=
  lit "No products found for this barcode".

Definition http_error_message (status : N) : jsstring :=
  lit ("HTTP error! status: " ++ toString status)%string.

(** The two branches of the test on [data.products] (source lines
    63-67 and 69-74). *)
Definition products_found (products : list Product.t) : M unit :=
  setProducts products ;;
  toast (Toast.make (lit "Products found")
           (lit ("Found " ++ toString (N.of_nat (List.length products))
                 ++ " product(s)")%string)
           None).

Definition no_results : M unit :=
  setError not_found_message ;;
  toast (Toast.make (lit "No results") not_found_message
           (Some (lit "destructive"))).

(** The body of the [try] block (source lines 52-75).  In
    [data.products && data.products.length > 0] a missing or [null]
    property is falsy and an array, empty or not, is truthy; when [data]
    is [null] reading the property throws. *)
Definition searchProducts_try (barcode : jsstring) : M unit :=
  query <- encodeURIComponent_m (trim barcode) ;;
  promise <- fetch (endpoint ++ query) ;;
  response <- await promise ;;
  (if negb (Response.ok response) then
     throw (ErrorObject (http_error_message (Response.status response)))
   else ret tt) ;;
  data <- await (Response.json response) ;;
  products <- get_products_m data ;;
  match products with
  | value products =>
      if (0 <? List.length products)%nat then products_found products
      else no_results
  | undefined | null => no_results
  end.

(** The [catch] block (source lines 76-83). *)
Definition searchProducts_catch (err : thrown) : M unit :=
  let errorMessage :=
    match err with
    | ErrorObject message => message
    | NonError => lit "Failed to fetch products"
    end in
  setError errorMessage ;;
  toast (Toast.make (lit "Search failed") errorMessage
           (Some (lit "destructive"))).

(** [searchProducts] (source lines 37-87).  [barcode] is the value of the
    state cell captured by the closure of the current render. *)
Definition searchProducts : M unit :=
  fun w =>
    let barcode := State.barcode (World.state w) in
    (if negb (truthy_string (trim barcode)) then
       toast warning_toast
     else
       setLoading true ;;
       setError [] ;;
       setProducts [] ;;
       try_catch_finally
         (searchProducts_try barcode)
         searchProducts_catch
         (setLoading false)) w.

End Handler.

(** ** [Intl.NumberFormat], as far as [formatPrice] uses it

    The formatter is built for locale [id-ID], style [currency] and
    currency [IDR].  Digit options are resolved as ECMA-402 prescribes
    ([SetNumberFormatDigitOptions]), the number is rounded half away from
    zero to the resolved maximum of fraction digits ([ToRawFixed] with the
    default rounding mode [halfExpand]) and trailing zeros are dropped down
    to the resolved minimum.  The locale data of [id] gives [.] as group
    separator, [,] as decimal separator, and the symbol [Rp], separated
    from a following digit by a no-break space.

    The default number of fraction digits of a currency ([CurrencyDigits])
    is not in the source: it comes from the currency data of the engine
    that runs the component, and engines differ on [IDR] (the ISO 4217
    list has two minor digits, newer locale data has none).  It is a
    parameter of the formatter. *)

Module Intl.

Inductive currency_code : Type := IDR.

(** Two tables of currency digits engines have: the minor units of the
    ISO 4217 list, and locale data in which [IDR] has no fraction
    digits. *)
Definition ISO_4217 (c : currency_code) : nat :=
  match c with
  | IDR => 2
  end.

Definition without_fraction (c : currency_code) : nat :=
  match c with
  | IDR => 0
  end.

Record options : Type := make_options {
  currency : currency_code;
  minimumFractionDigits : option nat;
  maximumFractionDigits : option nat
}.

(** The resolved [minimumFractionDigits] and [maximumFractionDigits].
    (When both are given and the minimum exceeds the maximum the
    constructor throws a [RangeError]; the component never does that and
    the pair is returned as it is.) *)
Definition resolved_fraction_digits (CurrencyDigits : currency_code -> nat)
    (o : options) : nat * nat :=
  let default := CurrencyDigits (currency o) in
  match minimumFractionDigits o, maximumFractionDigits o with
  | None, None => (default, default)
  | None, Some mxfd => (Nat.min default mxfd, mxfd)
  | Some mnfd, None => (mnfd, Nat.max default mnfd)
  | Some mnfd, Some mxfd => (mnfd, mxfd)
  end.

Definition group_separator : N := 46.    (* . *)
Definition decimal_separator : N := 44.  (* , *)
Definition no_break_space : N := 160.
Definition currency_symbol (c : currency_code) : jsstring :=
  match c with
  | IDR => lit "Rp"
  end.

(** The magnitude [a / b] scaled by [10 ^ f] and rounded to the nearest
    integer, ties away from zero. *)
Definition round_scaled (f : nat) (a b : N) : N :=
  ((2 * a * 10 ^ N.of_nat f + b) / (2 * b))%N.

(** The [f] low decimal digits of [n], most significant first. *)
Fixpoint fixed_digits (f : nat) (n : N) : jsstring :=
  match f with
  | O => []
  | S f' => fixed_digits f' (n / 10) ++ [48 + n mod 10]%N
  end.

(** Drop at most [cut] zeros from the front of a reversed digit string. *)
Fixpoint drop_zeros (cut : nat) (r : jsstring) : jsstring :=
  match cut, r with
  | S cut', d :: r' => if (d =? 48)%N then drop_zeros cut' r' else r
  | _, _ => r
  end.

Definition fraction_part (mnfd mxfd : nat) (n : N) : jsstring :=
  rev (drop_zeros (mxfd - mnfd) (rev (fixed_digits mxfd n))).

(** Separators between groups of three digits, on a reversed digit
    string. *)
Fixpoint group_rev (r : jsstring) : jsstring :=
  match r with
  | a :: b :: c :: ((_ :: _) as rest) =>
      a :: b :: c :: group_separator :: group_rev rest
  | _ => r
  end.

Definition integer_part (n : N) : jsstring :=
  rev (group_rev (rev (lit (toString n)))).

(** A non-negative magnitude [a / b] as a decimal string. *)
Definition format_magnitude (mnfd mxfd : nat) (a b : N) : jsstring :=
  let n := round_scaled mxfd a b in
  let scale := (10 ^ N.of_nat mxfd)%N in
  let fraction := fraction_part mnfd mxfd (n mod scale) in
  integer_part (n / scale) ++
  match fraction with
  | [] => []
  | _ :: _ => decimal_separator :: fraction
  end.

Definition minus_sign : jsstring := lit "-".

(** [Intl.NumberFormat.prototype.format].  With the default
    [signDisplay] the sign of a negative number, negative zero included,
    precedes the currency symbol.  The no-break space stands between the
    symbol and a digit only: [NaN] and the infinity sign follow the
    symbol directly. *)
Definition format (CurrencyDigits : currency_code -> nat) (o : options)
    (x : number) : jsstring :=
  let '(mnfd, mxfd) := resolved_fraction_digits CurrencyDigits o in
  let symbol := currency_symbol (currency o) in
  match x with
  | Num q =>
      (if (Qnum q <? 0)%Z then minus_sign else []) ++
      symbol ++ [no_break_space] ++
      format_magnitude mnfd mxfd (Z.abs_N (Qnum q)) (Npos (Qden q))
  | NegZero =>
      minus_sign ++ symbol ++ [no_break_space] ++
      format_magnitude mnfd mxfd 0 1
  | NaN => symbol ++ lit "NaN"
  | Infinity negative =>
      (if negative then minus_sign else []) ++ symbol ++ [8734%N]
  end.

End Intl.

Section Engine.

(** The currency data of the engine the component runs on. *)
Variable CurrencyDigits : Intl.currency_code -> nat.

(** [formatPrice] (source lines 95-101): only [minimumFractionDigits] is
    passed to the constructor. *)
Definition formatPrice (price : number) : jsstring :=
  Intl.format CurrencyDigits (Intl.make_options Intl.IDR (Some 0%nat) None)
    price.

Definition no_separator (c : N) : bool :=
  negb (c =? Intl.decimal_separator)%N.

(** Number of code units after the decimal separator (0 without one). *)
Fixpoint fraction_digits (s : jsstring) : nat :=
  match s with
  | [] => 0
  | c :: rest =>
      if (c =? Intl.decimal_separator)%N then List.length rest
      else fraction_digits rest
  end.

(** ** React elements

    What the component returns: a tree whose leaves are the values of the
    JSX expression containers.  React shows a string or a number as text
    and shows nothing for a boolean, [null] or [undefined]. *)

Inductive prop : Type :=
  | PString (s : jsstring)
  | PNumber (x : number)
  | PObject (fields : list (string * jsstring)).

#[warnings="-register-all"]
Inductive node : Type :=
  | text (s : jsstring)
  | num (x : number)
  | boolean (b : bool)
  | null_node
  | undefined_node
  | element (tag : string) (props : list (string * prop)) (children : list node)
  | array (items : list node).

(** An element that only carries a [className]. *)
Definition el (tag cls : string) (children : list node) : node :=
  element tag [("className"%string, PString (lit cls))] children.

Fixpoint jsstring_eqb (a b : jsstring) : bool :=
  match a, b with
  | [], [] => true
  | x :: a', y :: b' => (x =? y)%N && jsstring_eqb a' b'
  | _, _ => false
  end.

Fixpoint className_of (props : list (string * prop)) : option jsstring :=
  match props with
  | [] => None
  | (k, PString s) :: rest =>
      if String.eqb k "className" then Some s else className_of rest
  | _ :: rest => className_of rest
  end.

(** The element has exactly this [className]. *)
Definition has_class (cls : string) (n : node) : bool :=
  match n with
  | element _ props _ =>
      match className_of props with
      | Some s => jsstring_eqb s (lit cls)
      | None => false
      end
  | _ => false
  end.

(** All nodes of a tree that satisfy [p], in document order. *)
Fixpoint find_all (p : node -> bool) (n : node) : list node :=
  (if p n then [n] else []) ++
  match n with
  | element _ _ children => flat_map (find_all p) children
  | array items => flat_map (find_all p) items
  | _ => []
  end.

(** Queries on a rendered tree. *)

(** A caption: a [span] of class [text-muted-foreground] whose only child
    is the text [l]. *)
Definition is_caption (l : string) (n : node) : bool :=
  match n with
  | element tag _ [text s] =>
      String.eqb tag "span" && has_class "text-muted-foreground" n
      && jsstring_eqb s (lit l)
  | _ => false
  end.

(** The rows captioned [l]: the elements whose first child is that
    caption. *)
Definition captioned_rows (l : string) (n : node) : list node :=
  find_all
    (fun m =>
       match m with
       | element _ _ (first :: _) => is_caption l first
       | _ => false
       end) n.

(** The element that shows a count of units: a number followed by the
    text [ units]. *)
Definition is_unit_count (n : node) : bool :=
  match n with
  | element _ _ [num _; text s] => jsstring_eqb s (lit " units")
  | _ => false
  end.

Definition tier_row_class : string := "flex justify-between text-xs".
Definition more_tiers_class : string := "text-xs text-muted-foreground text-center".

(** ** The product card (source lines 165-242) *)

(** [product.selling_price_2 && (...)] (source lines 203-208). *)
Definition price_2_row (product : Product.t) : node :=
  match Product.selling_price_2 product with
  | undefined => undefined_node
  | null => null_node
  | value x =>
      if truthy_number x then
        el "div" "flex justify-between text-sm"
          [ el "span" "text-muted-foreground" [text (lit "Price 2:")];
            el "span" "font-semibold" [text (formatPrice x)] ]
      else num x
  end.

(** The stock row (source lines 210-215). *)
Definition stock_row (product : Product.t) : node :=
  el "div" "flex justify-between text-sm"
    [ el "span" "text-muted-foreground" [text (lit "Stock:")];
      el "span"
        ("font-semibold " ++
         (if strict_eq_zero (Product.stock product)
          then "text-destructive" else "text-green-600"))%string
        [num (Product.stock product); text (lit " units")] ].

(** One visible tier (source lines 227-230). *)
Definition tier_row (tier : PriceTier.t) (tierIndex : nat) : node :=
  element "div"
    [ ("key"%string, PNumber (of_nat tierIndex));
      ("className"%string, PString (lit tier_row_class)) ]
    [ el "span" "text-muted-foreground"
        [num (PriceTier.qty tier); text (lit "+ units:")];
      el "span" "font-medium" [text (formatPrice (PriceTier.price tier))] ].

(** [array.map(f)] with the index as second argument. *)
Fixpoint map_index {A B} (f : A -> nat -> B) (i : nat) (l : list A) : list B :=
  match l with
  | [] => []
  | a :: l' => f a i :: map_index f (S i) l'
  end.

(** [array.slice(0, n)] *)
Definition slice0 {A} (n : nat) (l : list A) : list A := firstn n l.

(** [a - b] on array lengths, as a number. *)
Definition length_minus (a b : nat) : number :=
  Num (inject_Z (Z.of_nat a - Z.of_nat b)).

(** [product.price_tiers.length > 3 && (...)] (source lines 232-236). *)
Definition more_tiers (price_tiers : list PriceTier.t) : node :=
  if (3 <? List.length price_tiers)%nat then
    el "div" more_tiers_class
      [ text (lit "+"); num (length_minus (List.length price_tiers) 3);
        text (lit " more tiers") ]
  else boolean false.

(** [product.price_tiers && product.price_tiers.length > 0 && (...)]
    (source lines 219-239). *)
Definition price_tiers_section (product : Product.t) : node :=
  match Product.price_tiers product with
  | undefined => undefined_node
  | null => null_node
  | value price_tiers =>
      if (0 <? List.length price_tiers)%nat then
        el "div" "border-t pt-3"
          [ el "div" "flex items-center gap-2 mb-2"
              [ el "DollarSign" "h-4 w-4 text-muted-foreground" [];
                el "span" "text-sm font-medium" [text (lit "Price Tiers")] ];
            el "div" "space-y-1"
              [ array (map_index tier_row 0 (slice0 3 price_tiers));
                more_tiers price_tiers ] ]
      else boolean false
  end.

Definition price_row (label cls : string) (price : number) : node :=
  el "div" "flex justify-between text-sm"
    [ el "span" "text-muted-foreground" [text (lit label)];
      el "span" cls [text (formatPrice price)] ].

Definition product_card (product : Product.t) (index : nat) : node :=
  element "Card"
    [ ("key"%string, PNumber (Product.id product));
      ("className"%string,
       PString (lit "animate-fade-in hover:shadow-lg transition-all duration-200"));
      ("style"%string,
       PObject [("animationDelay"%string,
                 lit (toString (N.of_nat index * 100) ++ "ms")%string)]) ]
    [ el "CardHeader" "pb-3"
        [ el "div" "flex items-start gap-3"
            [ el "div" "p-2 bg-primary/10 rounded-lg"
                [el "Package" "h-6 w-6 text-primary" []];
              el "div" "flex-1"
                [ el "CardTitle" "text-lg font-semibold line-clamp-2"
                    [text (Product.name product)];
                  el "p" "text-sm text-muted-foreground mt-1"
                    [text (lit "SKU: "); text (Product.sku product)] ] ] ];
      el "CardContent" "space-y-3"
        [ el "div" "space-y-2"
            [ el "div" "flex justify-between text-sm"
                [ el "span" "text-muted-foreground" [text (lit "Barcode:")];
                  el "span" "font-mono" [text (Product.barcode product)] ];
              price_row "COGS:" "font-semibold" (Product.cogs product);
              price_row "Selling Price:" "font-semibold text-primary"
                (Product.selling_price product);
              price_2_row product;
              stock_row product ];
          price_tiers_section product ] ].

(** The products grid (source lines 159-245):
    [products.length > 0 && (...)]. *)
Definition products_grid (products : list Product.t) : node :=
  if (0 <? List.length products)%nat then
    el "div" "space-y-4"
      [ el "h2" "text-2xl font-semibold text-foreground mb-4"
          [ text (lit "Found "); num (of_nat (List.length products));
            text (lit " product(s)") ];
        el "div" "grid gap-4 md:grid-cols-2 lg:grid-cols-3"
          [array (map_index product_card 0 products)] ]
  else boolean false.

(** ** Sample data

    Two products, a network that answers four barcodes, and component
    states from which a search starts. *)

Definition sample_tier (qty price : Z) : PriceTier.t :=
  PriceTier.make (Num (inject_Z qty)) (Num (inject_Z price)).

Definition bintang : Product.t :=
  Product.make (Num 1) (lit "Bir Bintang 330ml") (lit "BB-330")
    (lit "8991234500017") (Num 30000) (Num 35000) (value (Num 0)) (Num 0)
    (value [ sample_tier 6 34000; sample_tier 12 33000; sample_tier 24 32000;
             sample_tier 48 31000; sample_tier 96 30000 ]).

Definition anker : Product.t :=
  Product.make (Num 2) (lit "Anker Bir 620ml") (lit "AB-620")
    (lit "8991234500024") (Num 41000) (Num 47500) (value (Num 46000))
    (Num 12) undefined.

Definition sample_response (status : N) (products : maybe (list Product.t))
  : settled Response.t :=
  Fulfilled
    (Response.make status
       (Fulfilled (JsonObject (ApiResponse.make (lit "success") products)))).

Definition sample_network (url : jsstring) : settled Response.t :=
  if jsstring_eqb url (endpoint ++ lit "bir%20bintang") then
    sample_response 200 (value [bintang; anker])
  else if jsstring_eqb url (endpoint ++ lit "none") then
    sample_response 200 (value [])
  else if jsstring_eqb url (endpoint ++ lit "missing") then
    sample_response 200 undefined
  else if jsstring_eqb url (endpoint ++ lit "broken") then
    sample_response 503 null
  else Rejected (ErrorObject (lit "Failed to fetch")).

(** A component that shows the outcome of an earlier search and now holds
    [barcode] in its input. *)
Definition after_earlier_search (barcode : string) : World.t :=
  World.start (State.make (lit barcode) [anker] false (lit "HTTP error! status: 500")).

(** ** The key handler (source lines 89-93) *)

(** Calling an [async] function without awaiting it: its effects happen,
    the caller goes on at once and nobody looks at the promise. *)
Definition detached {A} (c : M A) : M unit :=
  fun w => (Normal tt, snd (c w)).

Section Events.

Variable network : jsstring -> settled Response.t.

(** [handleKeyPress]: [key] is [e.key]. *)
Definition handleKeyPress (key : jsstring) : M unit :=
  if jsstring_eqb key (lit "Enter") then detached (searchProducts network)
  else ret tt.

End Events.

(** ** The whole view (source lines 103-248)

    The part of the tree around the products grid has controls: elements
    with boolean attributes and callbacks.  It is a second tree type whose
    leaves can be plain nodes. *)

Inductive callback : Type :=
  | SetBarcode      (* (e) => setBarcode(e.target.value) *)
  | HandleKeyPress  (* handleKeyPress *)
  | SearchProducts. (* searchProducts *)

Inductive attr : Type :=
  | AString (s : jsstring)
  | ABool (b : bool)
  | ACallback (c : callback).

#[warnings="-register-all"]
Inductive view : Type :=
  | vtext (s : jsstring)
  | velement (tag : string) (attrs : list (string * attr)) (children : list view)
  | vnode (n : node).

(** An element of the view that only carries a [className]. *)
Definition vel (tag cls : string) (children : list view) : view :=
  velement tag [("className"%string, AString (lit cls))] children.

Definition banner_class : string := "mb-8 border-destructive".

(** The error message (source lines 147-156): [error && (...)]; for the
    empty string the expression is that string. *)
Definition error_banner (error : jsstring) : view :=
  if truthy_string error then
    vel "Card" banner_class
      [ vel "CardContent" "p-6"
          [ vel "div" "flex items-center gap-2 text-destructive"
              [ vel "AlertCircle" "h-5 w-5" [];
                velement "span" [] [vtext error] ] ] ]
  else vtext error.

(** The search section (source lines 113-144). *)
Definition search_section (barcode : jsstring) (loading : bool) : view :=
  vel "Card" "mb-8"
    [ velement "CardHeader" []
        [ vel "CardTitle" "flex items-center gap-2"
            [ vel "Search" "h-5 w-5" []; vtext (lit "Search Products") ] ];
      velement "CardContent" []
        [ vel "div" "flex gap-4"
            [ velement "Input"
                [ ("placeholder"%string,
                   AString (lit "Enter barcode (e.g., bir bintang)"));
                  ("value"%string, AString barcode);
                  ("onChange"%string, ACallback SetBarcode);
                  ("onKeyPress"%string, ACallback HandleKeyPress);
                  ("className"%string, AString (lit "flex-1"));
                  ("disabled"%string, ABool loading) ]
                [];
              velement "Button"
                [ ("onClick"%string, ACallback SearchProducts);
                  ("disabled"%string, ABool loading);
                  ("className"%string, AString (lit "px-6")) ]
                [ (if loading then vel "Loader2" "h-4 w-4 animate-spin mr-2" []
                   else vel "Search" "h-4 w-4 mr-2" []);
                  vtext (lit "Search") ] ] ] ].

(** What the component returns for a state. *)
Definition render (s : State.t) : view :=
  vel "div" "min-h-screen bg-background p-6"
    [ vel "div" "container mx-auto max-w-6xl"
        [ vel "div" "text-center mb-8"
            [ vel "h1" "text-4xl font-bold text-foreground mb-2"
                [vtext (lit "Barcode Lookup")];
              vel "p" "text-muted-foreground"
                [vtext (lit "Search products by barcode")] ];
          search_section (State.barcode s) (State.loading s);
          error_banner (State.error s);
          vnode (products_grid (State.products s)) ] ].

(** Queries on a view. *)

Fixpoint vfind_all (p : view -> bool) (v : view) : list view :=
  (if p v then [v] else []) ++
  match v with
  | velement _ _ children => flat_map (vfind_all p) children
  | _ => []
  end.

(** The plain nodes a view holds, in document order. *)
Fixpoint nodes_of (v : view) : list node :=
  match v with
  | vnode n => [n]
  | velement _ _ children => flat_map nodes_of children
  | vtext _ => []
  end.

Definition has_tag (tag : string) (n : node) : bool :=
  match n with
  | element t _ _ => String.eqb t tag
  | _ => false
  end.

(** The product cards a view shows. *)
Definition product_cards (v : view) : list node :=
  flat_map (find_all (has_tag "Card")) (nodes_of v).

Fixpoint attr_of (name : string) (attrs : list (string * attr)) : option attr :=
  match attrs with
  | [] => None
  | (k, a) :: rest => if String.eqb k name then Some a else attr_of name rest
  end.

Definition is_callback (a : attr) : bool :=
  match a with
  | ACallback _ => true
  | _ => false
  end.

(** The elements the user can act on: those with a callback. *)
Definition is_control (v : view) : bool :=
  match v with
  | velement _ attrs _ => existsb (fun ka => is_callback (snd ka)) attrs
  | _ => false
  end.

Definition disabled_of (v : view) : option attr :=
  match v with
  | velement _ attrs _ => attr_of "disabled" attrs
  | _ => None
  end.

Definition has_vclass (cls : string) (v : view) : bool :=
  match v with
  | velement _ attrs _ =>
      match attr_of "className" attrs with
      | Some (AString s) => jsstring_eqb s (lit cls)
      | _ => false
      end
  | _ => false
  end.

Definition has_vtag (tag : string) (v : view) : bool :=
  match v with
  | velement t _ _ => String.eqb t tag
  | _ => false
  end.

(** ** Predicates on strings used in the properties *)

(** Every code unit is below 65536, as in every JavaScript string. *)
Definition well_formed (s : jsstring) : bool :=
  forallb (fun c => (c <? 65536)%N) s.

Definition is_surrogate (c : N) : bool :=
  is_high_surrogate c || is_low_surrogate c.

(** A code unit that may appear in the output of [encodeURIComponent]:
    unreserved, [%], or an upper-case hexadecimal digit. *)
Definition uri_safe (c : N) : bool :=
  uri_unreserved c || (c =? 37)%N || ((65 <=? c) && (c <=? 70))%N.

(** The state invariant of a running search: the barcode is the one the
    search started with and an error message and products are never held
    together. *)
Definition search_invariant (barcode : jsstring) (s : State.t) : Prop :=
  State.barcode s = barcode /\ (State.error s = [] \/ State.products s = []).

(** The states the setters produced between two worlds of one run. *)
Definition new_states (w w' : World.t) : list State.t :=
  skipn (List.length (World.history w)) (World.history w').

(** The message the [catch] block shows for a thrown value. *)
Definition message_of (err : thrown) : jsstring :=
  match err with
  | ErrorObject message => message
  | NonError => lit "Failed to fetch products"
  end.

Definition tag_of (v : view) : string :=
  match v with
  | velement t _ _ => t
  | _ => ""%string
  end.

(** The [disabled] attributes of the controls of the view of a state. *)
Definition controls_disabled (s : State.t) : list (option attr) :=
  map disabled_of (vfind_all is_control (render s)).

(** The error banners and the product cards the view of a state shows. *)
Definition banners (s : State.t) : list view :=
  vfind_all (has_vclass banner_class) (render s).

(** The requests a search with this barcode makes. *)
Definition sent_for (barcode : jsstring) : list jsstring :=
  if truthy_string (trim barcode) then
    match encodeURIComponent (trim barcode) with
    | Some query => [endpoint ++ query]
    | None => []
    end
  else [].

(** A server that answers 200 with the JSON body [null]. *)
Definition null_body_network (url : jsstring) : settled Response.t :=
  Fulfilled (Response.make 200 (Fulfilled JsonNull)).

(** A server that answers 200 with a body that is not JSON. *)
Definition unreadable_network (url : jsstring) : settled Response.t :=
  Fulfilled
    (Response.make 200
       (Rejected (ErrorObject (lit "Unexpected token < in JSON at position 0")))).

(** * Properties *)

(** ** Strings *)

Lemma lit_app (a b : string) : lit (a ++ b) = lit a ++ lit b.
Proof.
  unfold lit. rewrite <- map_app. f_equal.
  induction a as [|c a IH]; simpl; [reflexivity | now rewrite IH].
Qed.

Lemma starts_with_refl (s : jsstring) : starts_with s s = true.
Proof.
  induction s as [|c s IH]; simpl; [reflexivity |].
  now rewrite N.eqb_refl.
Qed.

Lemma includes_suffix (p s : jsstring) : includes (p ++ s) s = true.
Proof.
  induction p as [|c p IH]; simpl.
  - destruct s; simpl; [reflexivity |].
    now rewrite N.eqb_refl, starts_with_refl.
  - rewrite IH. apply orb_true_r.
Qed.

Lemma trimStart_all_white_space (s : jsstring) :
  forallb is_white_space s = true -> trimStart s = [].
Proof.
  induction s as [|c s IH]; simpl; [reflexivity |].
  intros H. apply andb_true_iff in H as [Hc Hs].
  rewrite Hc. auto.
Qed.

Lemma trimStart_nil_inv (s : jsstring) :
  trimStart s = [] -> forallb is_white_space s = true.
Proof.
  induction s as [|c s IH]; simpl; [reflexivity |].
  destruct (is_white_space c); [exact IH | discriminate].
Qed.

(** Trimming leaves nothing exactly when every code unit is white space. *)
Lemma trim_nil_iff (s : jsstring) :
  trim s = [] <-> forallb is_white_space s = true.
Proof.
  unfold trim, trimEnd. split.
  - intros H. apply trimStart_nil_inv.
    destruct (trimStart s) as [|c t] eqn:E; [reflexivity |].
    exfalso.
    assert (Hr : trimStart (rev (c :: t)) = []).
    { apply (f_equal (@rev N)) in H. rewrite rev_involutive in H. exact H. }
    apply trimStart_nil_inv in Hr.
    rewrite forallb_forall in Hr.
    assert (Hc : is_white_space c = true).
    { apply Hr. apply -> in_rev. now left. }
    simpl in E. destruct s as [|d s']; [discriminate |].
    revert E. generalize (d :: s'). intros l.
    induction l as [|x l IH]; simpl; [discriminate |].
    destruct (is_white_space x) eqn:Ex; [exact IH |].
    intros E. injection E as -> _. congruence.
  - intros H. rewrite (trimStart_all_white_space _ H). reflexivity.
Qed.

(** ** The handler *)

#[local] Opaque endpoint lit not_found_message warning_toast.

Ltac unfold_handler :=
  unfold searchProducts, try_catch_finally, searchProducts_try,
    searchProducts_catch, products_found, no_results, encodeURIComponent_m,
    get_products_m, fetch, await, setLoading, setError, setProducts, update, toast, bind,
    ret, throw.

(** Rewrite with what is known about the environment, then compute. *)
Ltac step H := rewrite H; simpl.

Lemma toString_reads_back (n : N) :
  option_map N.of_uint (NilZero.uint_of_string (toString n)) = Some n.
Proof.
  unfold toString. rewrite NilZero.usu.
  - simpl. now rewrite DecimalN.Unsigned.of_to.
  - destruct n as [|p]; [discriminate |].
    simpl. intros H.
    apply (f_equal Pos.of_uint) in H.
    rewrite DecimalPos.Unsigned.of_to in H. discriminate.
Qed.

Lemma http_error_message_includes_status (status : N) :
  includes (http_error_message status) (lit (toString status)) = true.
Proof.
  unfold http_error_message. rewrite lit_app. apply includes_suffix.
Qed.

Section HandlerFacts.

Variable network : jsstring -> settled Response.t.
Variable w : World.t.

Local Abbreviation barcode := (State.barcode (World.state w)).
Local Abbreviation out := (searchProducts network w).

(** C2.  When the barcode is empty after trimming (by [trim_nil_iff],
    when it holds white space only), [searchProducts] only shows the
    validation warning: the component state ([loading],
    [error], [products]) is the one before the call, no setter ran and
    no request was sent. *)
Theorem searchProducts_blank_barcode :
  trim barcode = [] ->
  out =
  (Normal tt,
   World.make (World.state w) (World.history w)
     (World.toasts w ++ [warning_toast]) (World.requests w)).
Proof.
  intros H.
  unfold searchProducts. rewrite H. reflexivity.
Qed.

Section Response.

Variables (query : jsstring) (r : Response.t).
Hypothesis barcode_given : truthy_string (trim barcode) = true.
Hypothesis query_encoded : encodeURIComponent (trim barcode) = Some query.
Hypothesis response_arrived : network (endpoint ++ query) = Fulfilled r.

Ltac to_response :=
  unfold_handler;
  step barcode_given; step query_encoded; step response_arrived.

(** C1.  A 2xx response whose body holds a non-empty [products] array
    makes the product list exactly that array, in its order, and
    leaves the error message empty whatever it was before. *)
Theorem searchProducts_populates_list (data : ApiResponse.t)
    (ps : list Product.t) :
  Response.ok r = true ->
  Response.json r = Fulfilled (JsonObject data) ->
  ApiResponse.products data = value ps ->
  ps <> [] ->
  fst out = Normal tt /\
  State.products (World.state (snd out)) = ps /\
  State.error (World.state (snd out)) = [].
Proof.
  intros Hok Hj Hp Hne. to_response.
  step Hok. step Hj. step Hp.
  destruct ps; [congruence |]. simpl. auto.
Qed.

(** C3.  A response whose status is outside 200-299 ends the search
    with an empty product list and a non-empty error message that
    contains the decimal status code. *)
Theorem searchProducts_http_error :
  Response.ok r = false ->
  fst out = Normal tt /\
  State.products (World.state (snd out)) = [] /\
  State.loading (World.state (snd out)) = false /\
  State.error (World.state (snd out)) =
    http_error_message (Response.status r) /\
  truthy_string (State.error (World.state (snd out))) = true /\
  exists code : string,
    option_map N.of_uint (NilZero.uint_of_string code) =
      Some (Response.status r) /\
    includes (State.error (World.state (snd out))) (lit code) = true.
Proof.
  intros Hok. to_response. step Hok.
  unfold http_error_message.
  repeat (split; [reflexivity |]).
  exists (toString (Response.status r)). split.
  - apply toString_reads_back.
  - apply http_error_message_includes_status.
Qed.

(** C4.  A 2xx response whose [products] is the empty array leaves the
    product list empty and sets the "no products found" message. *)
Theorem searchProducts_empty_array (data : ApiResponse.t) :
  Response.ok r = true ->
  Response.json r = Fulfilled (JsonObject data) ->
  ApiResponse.products data = value [] ->
  fst out = Normal tt /\
  State.products (World.state (snd out)) = [] /\
  State.error (World.state (snd out)) = not_found_message.
Proof.
  intros Hok Hj Hp. to_response.
  step Hok. step Hj. step Hp. auto.
Qed.

(** C10, as the code has it.  A 2xx response whose body is not [null]
    and has no [products] property, or has it [null], does not make the
    handler throw: it does what it does for an empty array, leaving the
    product list empty and setting the "no products found" message. *)
Theorem searchProducts_missing_products (data : parsed) :
  Response.ok r = true ->
  Response.json r = Fulfilled data ->
  get_products data = Some undefined \/ get_products data = Some null ->
  fst out = Normal tt /\
  State.products (World.state (snd out)) = [] /\
  State.error (World.state (snd out)) = not_found_message /\
  forall (network' : jsstring -> settled Response.t) (empty : ApiResponse.t),
    ApiResponse.products empty = value [] ->
    network' (endpoint ++ query) =
      Fulfilled
        (Response.make (Response.status r) (Fulfilled (JsonObject empty))) ->
    searchProducts network' w = out.
Proof.
  intros Hok Hj Hp.
  assert (Hok' : forall j, Response.ok (Response.make (Response.status r) j) = true)
    by (intros j; exact Hok).
  repeat split; try intros network' empty He Hn';
    unfold_handler; step barcode_given; step query_encoded;
    try step Hn'; step response_arrived;
    try (rewrite Hok'; simpl; rewrite He; simpl); step Hok; step Hj;
    destruct Hp as [Hp | Hp]; rewrite Hp; reflexivity.
Qed.

End Response.

(** C6.  With a barcode that is not blank the handler first resets the
    search state (loading on, error message empty, product list empty).
    Whenever the invocation completes it completes normally with the
    loading flag off; it stays suspended only while the request or the
    reading of the body never settles. *)
Theorem searchProducts_resets_and_clears_loading :
  truthy_string (trim barcode) = true ->
  (exists rest : list State.t,
     World.history (snd out) =
     World.history w ++
     [ State.make barcode (State.products (World.state w)) true
         (State.error (World.state w));
       State.make barcode (State.products (World.state w)) true [];
       reset_state (World.state w) ] ++ rest) /\
  (fst out = Normal tt /\
   State.loading (World.state (snd out)) = false
   \/
   fst out = Suspended /\
   exists query : jsstring,
     encodeURIComponent (trim barcode) = Some query /\
     (network (endpoint ++ query) = NeverSettles \/
      exists r : Response.t,
        network (endpoint ++ query) = Fulfilled r /\
        Response.ok r = true /\
        Response.json r = NeverSettles)).
Proof.
  intros Ht. unfold_handler. step Ht.
  destruct (encodeURIComponent (trim barcode)) as [query |] eqn:Hq; simpl.
  2: { split; [| now left]. eexists. rewrite <- !app_assoc. reflexivity. }
  destruct (network (endpoint ++ query)) as [r | e |] eqn:Hn; simpl.
  2: { split; [| now left]. eexists. rewrite <- !app_assoc. reflexivity. }
  2: { split; [| right; split; [reflexivity |]; exists query; auto].
       exists []. rewrite <- !app_assoc. reflexivity. }
  destruct (Response.ok r) eqn:Hok; simpl.
  2: { split; [| now left]. eexists. rewrite <- !app_assoc. reflexivity. }
  destruct (Response.json r) as [data | e |] eqn:Hj; simpl.
  2: { split; [| now left]. eexists. rewrite <- !app_assoc. reflexivity. }
  2: { split; [| right; split; [reflexivity |]; exists query; split; [reflexivity |];
                 right; exists r; auto].
       exists []. rewrite <- !app_assoc. reflexivity. }
  destruct data as [| data |]; simpl;
    [| destruct (ApiResponse.products data) as [| | ps]; simpl;
       [| | destruct ps; simpl] |];
    (split; [| now left]); eexists; rewrite <- !app_assoc; reflexivity.
Qed.

End HandlerFacts.

(** ** Price formatting *)

#[local] Transparent lit.

Lemma fraction_digits_app (a b : jsstring) :
  forallb no_separator a = true ->
  fraction_digits (a ++ b) = fraction_digits b.
Proof.
  induction a as [|c a IH]; simpl; [reflexivity |].
  intros H. apply andb_true_iff in H as [Hc Ha].
  unfold no_separator in Hc. apply negb_true_iff in Hc.
  rewrite Hc. auto.
Qed.

Lemma fraction_digits_none (a : jsstring) :
  forallb no_separator a = true -> fraction_digits a = 0%nat.
Proof.
  intros H. rewrite <- (app_nil_r a). now rewrite fraction_digits_app.
Qed.

Lemma forallb_rev {A} (p : A -> bool) (l : list A) :
  forallb p (rev l) = forallb p l.
Proof.
  induction l as [|a l IH]; simpl; [reflexivity |].
  rewrite forallb_app, IH. simpl. rewrite andb_true_r. apply andb_comm.
Qed.

Lemma string_of_uint_no_separator (d : Decimal.uint) :
  forallb no_separator (lit (NilEmpty.string_of_uint d)) = true.
Proof.
  induction d; simpl; try exact IHd; reflexivity.
Qed.

Lemma toString_no_separator (n : N) :
  forallb no_separator (lit (toString n)) = true.
Proof.
  unfold toString, NilZero.string_of_uint.
  destruct (N.to_uint n); try reflexivity;
    apply string_of_uint_no_separator.
Qed.

Lemma group_rev_no_separator (r : jsstring) :
  forallb no_separator r = true ->
  forallb no_separator (Intl.group_rev r) = true.
Proof.
  assert (H : forall (n : nat) (l : jsstring),
             (List.length l <= n)%nat ->
             forallb no_separator l = true ->
             forallb no_separator (Intl.group_rev l) = true).
  { induction n as [|n IH]; intros l Hlen Hl.
    - destruct l; [reflexivity | simpl in Hlen; lia].
    - destruct l as [|a [|b [|c [|d l']]]]; try exact Hl.
      change (Intl.group_rev (a :: b :: c :: d :: l'))
        with (a :: b :: c :: Intl.group_separator :: Intl.group_rev (d :: l')).
      cbn [forallb] in *.
      repeat (apply andb_true_iff in Hl as [?H Hl]).
      rewrite H, H0, H1.
      change (no_separator Intl.group_separator) with true. cbn [andb].
      apply (IH (d :: l')); [cbn [List.length] in *; lia |].
      cbn [forallb]. now rewrite H2, Hl. }
  apply (H (List.length r)). lia.
Qed.

Lemma integer_part_no_separator (n : N) :
  forallb no_separator (Intl.integer_part n) = true.
Proof.
  unfold Intl.integer_part. rewrite forallb_rev.
  apply group_rev_no_separator. rewrite forallb_rev.
  apply toString_no_separator.
Qed.

Lemma fixed_digits_length (f : nat) (n : N) :
  List.length (Intl.fixed_digits f n) = f.
Proof.
  revert n. induction f as [|f IH]; intros n; simpl; [reflexivity |].
  rewrite length_app, IH. simpl. lia.
Qed.

Lemma drop_zeros_length (cut : nat) (r : jsstring) :
  (List.length (Intl.drop_zeros cut r) <= List.length r)%nat.
Proof.
  revert r. induction cut as [|cut IH]; intros r; simpl.
  - destruct r; simpl; lia.
  - destruct r as [|d r]; simpl; [lia |].
    destruct (d =? 48)%N; simpl; [specialize (IH r); lia | lia].
Qed.

Lemma fraction_part_length (mnfd mxfd : nat) (n : N) :
  (List.length (Intl.fraction_part mnfd mxfd n) <= mxfd)%nat.
Proof.
  unfold Intl.fraction_part. rewrite length_rev.
  etransitivity; [apply drop_zeros_length |].
  now rewrite length_rev, fixed_digits_length.
Qed.

Lemma format_magnitude_fraction_digits (mnfd mxfd : nat) (a b : N) :
  (fraction_digits (Intl.format_magnitude mnfd mxfd a b) <= mxfd)%nat.
Proof.
  unfold Intl.format_magnitude.
  rewrite fraction_digits_app by apply integer_part_no_separator.
  pose proof (fraction_part_length mnfd mxfd
                (Intl.round_scaled mxfd a b mod 10 ^ N.of_nat mxfd)) as H.
  destruct (Intl.fraction_part _ _ _); simpl in *; lia.
Qed.

Lemma round_scaled_nearest (f : nat) (a b : N) :
  b <> 0%N ->
  (2 * Intl.round_scaled f a b * b <= 2 * a * 10 ^ N.of_nat f + b)%N /\
  (2 * a * 10 ^ N.of_nat f + b < 2 * (Intl.round_scaled f a b + 1) * b)%N.
Proof.
  intros Hb. unfold Intl.round_scaled.
  set (x := (2 * a * 10 ^ N.of_nat f + b)%N).
  assert (H2b : (2 * b <> 0)%N) by lia.
  pose proof (N.Div0.mul_div_le x (2 * b)) as Hle.
  pose proof (N.mul_succ_div_gt x (2 * b) H2b) as Hgt.
  split; lia.
Qed.

Lemma round_scaled_integer (f : nat) (a : N) :
  Intl.round_scaled f a 1 = (a * 10 ^ N.of_nat f)%N.
Proof.
  unfold Intl.round_scaled. change (2 * 1)%N with 2%N.
  symmetry. apply N.div_unique with (r := 1%N); lia.
Qed.

Lemma rev_fixed_digits_zero (f : nat) :
  rev (Intl.fixed_digits f 0) = repeat 48%N f.
Proof.
  induction f as [|f IH]; [reflexivity |].
  cbn [Intl.fixed_digits]. rewrite rev_app_distr.
  change (0 / 10)%N with 0%N. now rewrite IH.
Qed.

Lemma drop_zeros_repeat (f : nat) : Intl.drop_zeros f (repeat 48%N f) = [].
Proof. induction f as [|f IH]; [reflexivity | exact IH]. Qed.

Lemma fraction_part_zero (f : nat) : Intl.fraction_part 0 f 0 = [].
Proof.
  unfold Intl.fraction_part.
  now rewrite Nat.sub_0_r, rev_fixed_digits_zero, drop_zeros_repeat.
Qed.

Lemma format_magnitude_integer (f : nat) (a : N) :
  Intl.format_magnitude 0 f a 1 = Intl.integer_part a.
Proof.
  unfold Intl.format_magnitude. rewrite round_scaled_integer.
  assert (H : (10 ^ N.of_nat f <> 0)%N) by (apply N.pow_nonzero; discriminate).
  rewrite N.Div0.mod_mul, N.div_mul by exact H.
  rewrite fraction_part_zero. apply app_nil_r.
Qed.

(** What [formatPrice] resolves to: no minimum, the currency's digits as
    maximum. *)
Lemma formatPrice_unfold (x : number) :
  formatPrice x =
  match x with
  | Num q =>
      (if (Qnum q <? 0)%Z then lit "-" else []) ++
      lit "Rp" ++ [Intl.no_break_space] ++
      Intl.format_magnitude 0 (CurrencyDigits Intl.IDR)
        (Z.abs_N (Qnum q)) (Npos (Qden q))
  | NegZero =>
      lit "-" ++ lit "Rp" ++ [Intl.no_break_space] ++
      Intl.format_magnitude 0 (CurrencyDigits Intl.IDR) 0 1
  | NaN => lit "Rp" ++ lit "NaN"
  | Infinity negative =>
      (if negative then lit "-" else []) ++ lit "Rp" ++ [8734%N]
  end.
Proof.
  unfold formatPrice, Intl.format, Intl.resolved_fraction_digits.
  cbn [Intl.minimumFractionDigits Intl.maximumFractionDigits Intl.currency].
  rewrite Nat.max_0_r. destruct x; reflexivity.
Qed.

(** C7, as the code has it.  The formatter is built with a minimum of zero
    fraction digits and keeps as maximum the digits [d] the engine has for
    the currency.  No output has more than [d] fraction digits (none at
    all when [d] is 0).  A finite value is rounded to the nearest multiple
    of [10 ^ -d], a tie away from zero, and written as sign, [Rp], a
    no-break space, the integer digits in groups of three and the fraction
    digits without trailing zeros.  An integer is written without decimal
    portion, and 50000 is written [Rp 50.000]. *)
Theorem formatPrice_fraction_digits :
  (forall x : number,
     (fraction_digits (formatPrice x) <= CurrencyDigits Intl.IDR)%nat) /\
  (forall q : Q,
   exists n : N,
     (2 * n * Npos (Qden q) <=
      2 * Z.abs_N (Qnum q) * 10 ^ N.of_nat (CurrencyDigits Intl.IDR)
      + Npos (Qden q))%N /\
     (2 * Z.abs_N (Qnum q) * 10 ^ N.of_nat (CurrencyDigits Intl.IDR)
      + Npos (Qden q) <
      2 * (n + 1) * Npos (Qden q))%N /\
     formatPrice (Num q) =
       (if (Qnum q <? 0)%Z then lit "-" else []) ++
       lit "Rp" ++ [Intl.no_break_space] ++
       Intl.integer_part (n / 10 ^ N.of_nat (CurrencyDigits Intl.IDR)) ++
       match
         Intl.fraction_part 0 (CurrencyDigits Intl.IDR)
           (n mod 10 ^ N.of_nat (CurrencyDigits Intl.IDR))
       with
       | [] => []
       | d :: ds => Intl.decimal_separator :: d :: ds
       end) /\
  (forall z : Z,
     formatPrice (Num (inject_Z z)) =
       (if (z <? 0)%Z then lit "-" else []) ++
       lit "Rp" ++ [Intl.no_break_space] ++ Intl.integer_part (Z.abs_N z) /\
     fraction_digits (formatPrice (Num (inject_Z z))) = 0%nat) /\
  formatPrice (Num (inject_Z 50000)) =
    lit "Rp" ++ [Intl.no_break_space] ++ lit "50.000".
Proof.
  assert (Int : forall z : Z,
            formatPrice (Num (inject_Z z)) =
            (if (z <? 0)%Z then lit "-" else []) ++
            lit "Rp" ++ [Intl.no_break_space] ++
            Intl.integer_part (Z.abs_N z)).
  { intros z. rewrite formatPrice_unfold. cbn [inject_Z Qnum Qden].
    now rewrite format_magnitude_integer. }
  split; [| split; [| split]].
  - intros x. rewrite formatPrice_unfold.
    destruct x as [q | | | negative].
    + rewrite !fraction_digits_app by (destruct (Qnum q <? 0)%Z; reflexivity).
      apply format_magnitude_fraction_digits.
    + rewrite !fraction_digits_app by reflexivity.
      apply format_magnitude_fraction_digits.
    + cbn. lia.
    + destruct negative; cbn; lia.
  - intros q.
    exists (Intl.round_scaled (CurrencyDigits Intl.IDR)
              (Z.abs_N (Qnum q)) (Npos (Qden q))).
    destruct (round_scaled_nearest (CurrencyDigits Intl.IDR)
                (Z.abs_N (Qnum q)) (b := Npos (Qden q))) as [Hle Hlt];
      [discriminate |].
    split; [exact Hle | split; [exact Hlt |]].
    rewrite formatPrice_unfold. unfold Intl.format_magnitude.
    cbv zeta.
    destruct (Intl.fraction_part 0 (CurrencyDigits Intl.IDR) _); reflexivity.
  - intros z. split; [apply Int |]. rewrite Int.
    apply fraction_digits_none.
    rewrite !forallb_app, integer_part_no_separator.
    destruct (z <? 0)%Z; reflexivity.
  - rewrite Int. vm_compute. reflexivity.
Qed.


(** ** The product card *)


Lemma map_index_length {A B} (f : A -> nat -> B) (i : nat) (l : list A) :
  List.length (map_index f i l) = List.length l.
Proof.
  revert i. induction l as [|a l IH]; intros i; simpl; [reflexivity |].
  now rewrite IH.
Qed.


Lemma find_none_in_tier_rows (p : node -> bool) (i : nat)
    (tiers : list PriceTier.t) :
  (forall t j, find_all p (tier_row t j) = []) ->
  flat_map (find_all p) (map_index tier_row i tiers) = [].
Proof.
  intros H. revert i.
  induction tiers as [|t tiers IH]; intros i; [reflexivity |].
  cbn [map_index flat_map]. now rewrite H, IH.
Qed.




(** C8.  The card has one count of units, the stock; its class is the
    destructive one exactly when [stock === 0] and the green one
    otherwise. *)
Theorem stock_style (p : Product.t) (index : nat) :
  exists cls : string,
    find_all is_unit_count (product_card p index) =
      [ el "span" cls [num (Product.stock p); text (lit " units")] ] /\
    (cls = "font-semibold text-destructive"%string <->
     strict_eq_zero (Product.stock p) = true) /\
    (cls = "font-semibold text-green-600"%string <->
     strict_eq_zero (Product.stock p) = false).
Proof.
  exists ("font-semibold " ++
          (if strict_eq_zero (Product.stock p)
           then "text-destructive" else "text-green-600"))%string.
  split.
  - unfold product_card.
    assert (E : find_all is_unit_count (price_tiers_section p) = []).
    { unfold price_tiers_section.
      destruct (Product.price_tiers p) as [| | l]; try reflexivity.
      destruct l as [|t l]; [reflexivity |].
      cbn -[formatPrice map_index slice0 more_tiers].
      rewrite find_none_in_tier_rows by reflexivity.
      unfold more_tiers. destruct (3 <? _)%nat; reflexivity. }
    assert (E2 : find_all is_unit_count (price_2_row p) = []).
    { unfold price_2_row.
      destruct (Product.selling_price_2 p) as [| | x]; try reflexivity.
      destruct (truthy_number x); reflexivity. }
    unfold price_row, stock_row.
    cbn -[formatPrice price_tiers_section price_2_row String.append].
    rewrite E, E2. reflexivity.
  - destruct (strict_eq_zero (Product.stock p)); simpl;
      split; split; intros; try reflexivity; discriminate.
Qed.

(** C9.  The card has a row captioned [Price 2:] exactly when
    [selling_price_2] is present and truthy; a [selling_price_2] of 0 is
    falsy and gives no such row. *)
Theorem price_2_row_shown (p : Product.t) (index : nat) :
  captioned_rows "Price 2:" (product_card p index) =
    match Product.selling_price_2 p with
    | value x =>
        if truthy_number x then
          [ el "div" "flex justify-between text-sm"
              [ el "span" "text-muted-foreground" [text (lit "Price 2:")];
                el "span" "font-semibold" [text (formatPrice x)] ] ]
        else []
    | undefined | null => []
    end.
Proof.
  assert (E : captioned_rows "Price 2:" (price_tiers_section p) = []).
  { unfold price_tiers_section, captioned_rows.
    destruct (Product.price_tiers p) as [| | l]; try reflexivity.
    destruct l as [|t l]; [reflexivity |].
    cbn -[formatPrice map_index slice0 more_tiers].
    rewrite find_none_in_tier_rows by reflexivity.
    unfold more_tiers. destruct (3 <? _)%nat; reflexivity. }
  unfold captioned_rows in *. unfold product_card, price_row, stock_row.
  cbn -[formatPrice price_tiers_section price_2_row String.append].
  rewrite E. unfold price_2_row.
  destruct (Product.selling_price_2 p) as [| | x];
    [| | destruct (truthy_number x)];
    destruct (strict_eq_zero (Product.stock p)); reflexivity.
Qed.

(** * Further properties of the handler *)

#[local] Opaque endpoint lit not_found_message warning_toast.

Lemma new_states_app (w w' : World.t) (l : list State.t) :
  World.history w' = World.history w ++ l -> new_states w w' = l.
Proof.
  intros H. unfold new_states. rewrite H, skipn_app, skipn_all, Nat.sub_diag.
  reflexivity.
Qed.

Lemma jsstring_eqb_eq (a b : jsstring) : jsstring_eqb a b = true <-> a = b.
Proof.
  revert b. induction a as [|x a IH]; intros [|y b]; simpl;
    try (split; [discriminate | discriminate]); try tauto.
  rewrite andb_true_iff, N.eqb_eq, IH. split.
  - intros [-> ->]. reflexivity.
  - intros E. injection E as -> ->. auto.
Qed.

(** Every path through [searchProducts], with the equations that select
    it. *)
Ltac handler_cases network w :=
  unfold_handler;
  destruct (truthy_string (trim (State.barcode (World.state w)))) eqn:Ht;
  simpl;
  [ destruct (encodeURIComponent (trim (State.barcode (World.state w))))
      as [query |] eqn:Hq; simpl;
    [ destruct (network (endpoint ++ query)) as [r | e |] eqn:Hn; simpl;
      [ destruct (Response.ok r) eqn:Hok; simpl;
        [ destruct (Response.json r) as [data | e |] eqn:Hj; simpl;
          [ destruct data as [| data |]; simpl;
            [ | destruct (ApiResponse.products data) as [| | ps] eqn:Hp;
                simpl; [ | | destruct ps as [| p ps]; simpl ]
            | ]
          | | ]
        | ]
      | | ]
    | ]
  | ].

Section MoreHandlerFacts.

Variable network : jsstring -> settled Response.t.
Variable w : World.t.

Local Abbreviation barcode := (State.barcode (World.state w)).
Local Abbreviation out := (searchProducts network w).

(** X1.  One call sends at most one request: none for a blank barcode or
    one that cannot be encoded, otherwise one, to the endpoint followed by
    the encoded trimmed barcode. *)
Theorem searchProducts_requests :
  World.requests (snd out) =
  World.requests w ++
  (if truthy_string (trim barcode) then
     match encodeURIComponent (trim barcode) with
     | Some query => [endpoint ++ query]
     | None => []
     end
   else []).
Proof.
  handler_cases network w; rewrite ?app_nil_r; reflexivity.
Qed.

(** X2.  The handler never throws: whatever the network does, the promise
    it returns is fulfilled or stays pending. *)
Theorem searchProducts_never_throws (err : thrown) :
  fst out <> Throw err.
Proof.
  handler_cases network w; discriminate.
Qed.

(** X3.  When [fetch] rejects, the search ends with an empty product
    list, loading off and the message of the thrown [Error] (or the
    fallback text for another value) both as error message and in one
    destructive toast. *)
Theorem searchProducts_fetch_rejected (query : jsstring) (e : thrown) :
  truthy_string (trim barcode) = true ->
  encodeURIComponent (trim barcode) = Some query ->
  network (endpoint ++ query) = Rejected e ->
  fst out = Normal tt /\
  World.state (snd out) = State.make barcode [] false (message_of e) /\
  World.toasts (snd out) =
    World.toasts w ++
    [Toast.make (lit "Search failed") (message_of e) (Some (lit "destructive"))].
Proof.
  intros Ht Hq Hn. unfold_handler.
  step Ht. step Hq. step Hn. destruct e; auto.
Qed.

(** X4.  When a 2xx response has a body that cannot be read
    ([response.json()] rejects), the search ends like a failed request:
    empty list, loading off, the message of the thrown value as error and
    in one destructive toast. *)
Theorem searchProducts_json_rejected (query : jsstring) (r : Response.t)
    (e : thrown) :
  truthy_string (trim barcode) = true ->
  encodeURIComponent (trim barcode) = Some query ->
  network (endpoint ++ query) = Fulfilled r ->
  Response.ok r = true ->
  Response.json r = Rejected e ->
  fst out = Normal tt /\
  World.state (snd out) = State.make barcode [] false (message_of e) /\
  World.toasts (snd out) =
    World.toasts w ++
    [Toast.make (lit "Search failed") (message_of e) (Some (lit "destructive"))].
Proof.
  intros Ht Hq Hn Hok Hj. unfold_handler.
  step Ht. step Hq. step Hn. step Hok. step Hj. destruct e; auto.
Qed.

(** X5.  A completed search shows exactly one toast.  Either products
    were found: the list is not empty, the error message is empty and the
    toast, not destructive, tells how many; or the list is empty and the
    toast is destructive and repeats the error message. *)
Theorem searchProducts_one_toast :
  truthy_string (trim barcode) = true ->
  fst out = Normal tt ->
  exists t : Toast.t,
    World.toasts (snd out) = World.toasts w ++ [t] /\
    (State.products (World.state (snd out)) <> [] /\
     State.error (World.state (snd out)) = [] /\
     Toast.variant t = None /\
     Toast.description t =
       lit ("Found " ++
            toString (N.of_nat (List.length (State.products (World.state (snd out)))))
            ++ " product(s)")%string
     \/
     State.products (World.state (snd out)) = [] /\
     Toast.variant t = Some (lit "destructive") /\
     Toast.description t = State.error (World.state (snd out))).
Proof.
  intros Ht' Hc. revert Hc.
  handler_cases network w; try discriminate; intros _;
    eexists; (split; [reflexivity |]);
    first [ right; repeat split; reflexivity
          | left; repeat split; try reflexivity; discriminate
          | destruct e; right; repeat split; reflexivity ].
Qed.

Lemma searchProducts_states :
  truthy_string (trim barcode) = true ->
  exists l : list State.t,
    new_states w (snd out) = l /\
    Forall (search_invariant barcode) (tl l) /\
    search_invariant barcode (World.state (snd out)) /\
    (fst out = Normal tt ->
     Forall (fun s => State.loading s = true) (removelast l) /\
     last l (World.state w) = World.state (snd out) /\
     State.loading (World.state (snd out)) = false) /\
    (fst out = Suspended ->
     Forall (fun s => State.loading s = true) l /\
     State.loading (World.state (snd out)) = true).
Proof.
  intros Ht'.
  handler_cases network w; try discriminate;
    (eexists; split;
     [ apply new_states_app; simpl; rewrite <- ?app_assoc; reflexivity
     | simpl; unfold search_invariant; simpl;
       split; [| split; [| split; intros Hc; try discriminate Hc]];
       repeat first [apply Forall_cons | apply Forall_nil | split];
       first [reflexivity | left; reflexivity | right; reflexivity] ]).
Qed.

(** X6.  From the second setter on, every state of a search keeps the
    barcode it started with and never holds an error message together
    with products; so does the state the search ends in. *)
Theorem searchProducts_invariant :
  truthy_string (trim barcode) = true ->
  Forall (search_invariant barcode) (tl (new_states w (snd out))) /\
  search_invariant barcode (World.state (snd out)).
Proof.
  intros Ht'.
  destruct (searchProducts_states Ht') as (l & -> & H1 & H2 & _). auto.
Qed.

(** X7.  While a search runs the loading flag is on: every state it
    produces has it on, except the last one of a search that completes,
    which is the state the search ends in. *)
Theorem searchProducts_loading_throughout :
  truthy_string (trim barcode) = true ->
  (fst out = Normal tt ->
   Forall (fun s => State.loading s = true)
     (removelast (new_states w (snd out))) /\
   last (new_states w (snd out)) (World.state w) = World.state (snd out)) /\
  (fst out = Suspended ->
   Forall (fun s => State.loading s = true) (new_states w (snd out)) /\
   State.loading (World.state (snd out)) = true).
Proof.
  intros Ht'.
  destruct (searchProducts_states Ht') as (l & -> & _ & _ & Hn & Hs).
  split; [intros Hc; destruct (Hn Hc) as (? & ? & _); auto | exact Hs].
Qed.

End MoreHandlerFacts.

(** X8.  What a search ends in does not depend on what an earlier search
    left: from two worlds with the same barcode the handler completes the
    same way, in the same component state. *)
Theorem searchProducts_forgets_earlier_search
    (network : jsstring -> settled Response.t) (w1 w2 : World.t) :
  State.barcode (World.state w1) = State.barcode (World.state w2) ->
  truthy_string (trim (State.barcode (World.state w1))) = true ->
  fst (searchProducts network w1) = fst (searchProducts network w2) /\
  World.state (snd (searchProducts network w1)) =
  World.state (snd (searchProducts network w2)).
Proof.
  intros Hb Ht1. assert (Ht2 := Ht1). rewrite Hb in Ht2.
  unfold_handler. rewrite Ht1, Ht2. simpl. rewrite <- Hb.
  destruct (encodeURIComponent (trim (State.barcode (World.state w1))))
    as [query |]; simpl; [| auto].
  destruct (network (endpoint ++ query)) as [r | e |]; simpl; auto.
  destruct (Response.ok r); simpl; [| auto].
  destruct (Response.json r) as [data | e |]; simpl; auto.
  destruct data as [| data |]; simpl; auto.
  destruct (ApiResponse.products data) as [| | ps]; simpl; auto.
  destruct ps; simpl; auto.
Qed.

(** X9.  The key handler looks at the key only.  Enter starts the search
    without waiting for it: the handler returns at once, also when the
    search stays pending, and the world is the one the search makes.  Any
    other key changes nothing. *)
Theorem handleKeyPress_spec
    (network : jsstring -> settled Response.t) (key : jsstring)
    (w : World.t) :
  key = lit "Enter" /\
  handleKeyPress network key w = (Normal tt, snd (searchProducts network w))
  \/
  key <> lit "Enter" /\
  handleKeyPress network key w = (Normal tt, w).
Proof.
  unfold handleKeyPress.
  destruct (jsstring_eqb key (lit "Enter")) eqn:E.
  - left. split; [now apply jsstring_eqb_eq | reflexivity].
  - right. split; [| reflexivity].
    intros H. apply jsstring_eqb_eq in H. congruence.
Qed.

(** * Further properties of the request *)

#[local] Transparent lit.

Lemma trimStart_split (s : jsstring) :
  exists a : jsstring,
    s = a ++ trimStart s /\ forallb is_white_space a = true.
Proof.
  induction s as [|c s (a & E & Ha)]; [now exists [] |].
  simpl. destruct (is_white_space c) eqn:Hc.
  - exists (c :: a). simpl. rewrite Hc, Ha. split; [now f_equal | reflexivity].
  - now exists [].
Qed.

Lemma trimStart_head (s : jsstring) (c : N) (t : jsstring) :
  trimStart s = c :: t -> is_white_space c = false.
Proof.
  induction s as [|x s IH]; simpl; [discriminate |].
  destruct (is_white_space x) eqn:Hx; [exact IH |].
  intros E. injection E as -> _. exact Hx.
Qed.

Lemma trimEnd_split (s : jsstring) :
  exists b : jsstring,
    s = trimEnd s ++ b /\ forallb is_white_space b = true.
Proof.
  destruct (trimStart_split (rev s)) as (a & E & Ha).
  exists (rev a). split.
  - unfold trimEnd. rewrite <- rev_app_distr, <- E. symmetry. apply rev_involutive.
  - now rewrite forallb_rev.
Qed.

Lemma trimEnd_last (s : jsstring) (d : N) :
  trimEnd s <> [] -> is_white_space (last (trimEnd s) d) = false.
Proof.
  unfold trimEnd. destruct (trimStart (rev s)) as [|x t] eqn:E.
  - intros H. now contradiction H.
  - intros _. simpl. rewrite last_last. exact (trimStart_head _ E).
Qed.

(** X10.  [trim] removes white space from both ends and nothing else:
    the string is some white space, the trimmed string, some white space,
    and the trimmed string neither starts nor ends with white space. *)
Theorem trim_spec (s : jsstring) :
  exists a b : jsstring,
    s = a ++ trim s ++ b /\
    forallb is_white_space a = true /\
    forallb is_white_space b = true /\
    match trim s with
    | [] => True
    | c :: _ =>
        is_white_space c = false /\
        is_white_space (last (trim s) c) = false
    end.
Proof.
  destruct (trimStart_split s) as (a & Ea & Ha).
  destruct (trimEnd_split (trimStart s)) as (b & Eb & Hb).
  exists a, b. unfold trim. repeat split; try assumption.
  - now rewrite <- Eb.
  - destruct (trimEnd (trimStart s)) as [|c t] eqn:E; [exact I |].
    split.
    + rewrite Eb in Ea. simpl in Eb. exact (trimStart_head _ Eb).
    + rewrite <- E. apply trimEnd_last. rewrite E. discriminate.
Qed.

Lemma trim_forallb (p : N -> bool) (s : jsstring) :
  forallb p s = true -> forallb p (trim s) = true.
Proof.
  destruct (trim_spec s) as (a & b & E & _).
  intros H. rewrite E, !forallb_app in H.
  apply andb_true_iff in H as [_ H]. now apply andb_true_iff in H as [H _].
Qed.

Lemma encodeURIComponent_unreserved (s : jsstring) :
  forallb uri_unreserved s = true -> encodeURIComponent s = Some s.
Proof.
  induction s as [|c s IH]; simpl; [reflexivity |].
  intros H. apply andb_true_iff in H as [Hc Hs].
  now rewrite Hc, (IH Hs).
Qed.

Lemma encodeURIComponent_without_surrogates (s : jsstring) :
  forallb (fun c => negb (is_surrogate c)) s = true ->
  exists e : jsstring, encodeURIComponent s = Some e.
Proof.
  induction s as [|c s IH]; simpl; [now exists [] |].
  intros H. apply andb_true_iff in H as [Hc Hs].
  destruct (IH Hs) as (e & ->).
  unfold is_surrogate in Hc. apply negb_true_iff, orb_false_iff in Hc as [Hh Hl].
  rewrite Hh, Hl. destruct (uri_unreserved c); simpl; eauto.
Qed.

Lemma uri_unreserved_safe (c : N) : uri_unreserved c = true -> uri_safe c = true.
Proof. intros H. unfold uri_safe. now rewrite H. Qed.

Lemma hex_digit_safe (d : N) : (d < 16)%N -> uri_safe (hex_digit d) = true.
Proof.
  intros H.
  assert (E : (d = 0 \/ d = 1 \/ d = 2 \/ d = 3 \/ d = 4 \/ d = 5 \/ d = 6 \/
               d = 7 \/ d = 8 \/ d = 9 \/ d = 10 \/ d = 11 \/ d = 12 \/
               d = 13 \/ d = 14 \/ d = 15)%N) by lia.
  repeat (destruct E as [-> | E]; [reflexivity |]). now subst.
Qed.

Lemma percent_byte_safe (b : N) :
  (b < 256)%N -> forallb uri_safe (percent_byte b) = true.
Proof.
  intros H. unfold percent_byte. cbn [forallb].
  rewrite !hex_digit_safe; [reflexivity | |].
  - apply N.mod_lt. discriminate.
  - apply N.Div0.div_lt_upper_bound. exact H.
Qed.

Lemma utf8_bytes (cp : N) :
  (cp < 1114112)%N -> Forall (fun b => (b < 256)%N) (utf8 cp).
Proof.
  intros H. unfold utf8.
  assert (M : forall x, (128 + x mod 64 < 256)%N).
  { intros x. pose proof (N.mod_lt x 64). lia. }
  destruct (N.ltb_spec cp 128); [repeat constructor; lia |].
  destruct (N.ltb_spec cp 2048).
  { repeat constructor; [| apply M].
    assert (cp / 64 < 32)%N by (apply N.Div0.div_lt_upper_bound; lia). lia. }
  destruct (N.ltb_spec cp 65536).
  { repeat constructor; try apply M.
    assert (cp / 4096 < 16)%N by (apply N.Div0.div_lt_upper_bound; lia). lia. }
  repeat constructor; try apply M.
  assert (cp / 262144 < 5)%N by (apply N.Div0.div_lt_upper_bound; lia). lia.
Qed.

Lemma percent_encode_safe (cp : N) :
  (cp < 1114112)%N -> forallb uri_safe (percent_encode cp) = true.
Proof.
  intros H. unfold percent_encode.
  induction (utf8_bytes H) as [|b l Hb _ IH]; [reflexivity |].
  cbn [flat_map]. rewrite forallb_app, IH, percent_byte_safe by exact Hb.
  reflexivity.
Qed.

Lemma encodeURIComponent_safe (s e : jsstring) :
  well_formed s = true ->
  encodeURIComponent s = Some e ->
  forallb uri_safe e = true.
Proof.
  assert (H : forall (n : nat) (s e : jsstring),
             (List.length s <= n)%nat ->
             well_formed s = true ->
             encodeURIComponent s = Some e ->
             forallb uri_safe e = true).
  { clear s e. induction n as [|n IH]; intros s e Hlen Hwf Henc.
    - destruct s; [| simpl in Hlen; lia].
      injection Henc as <-. reflexivity.
    - destruct s as [|c rest]; [injection Henc as <-; reflexivity |].
      cbn [well_formed forallb] in Hwf. apply andb_true_iff in Hwf as [Hc Hrest].
      apply N.ltb_lt in Hc. cbn [List.length] in Hlen.
      cbn [encodeURIComponent] in Henc.
      destruct (uri_unreserved c) eqn:Hu.
      { destruct (encodeURIComponent rest) as [e' |] eqn:E; [| discriminate].
        injection Henc as <-. cbn [forallb].
        rewrite (uri_unreserved_safe _ Hu). apply (IH rest); [lia | assumption | assumption]. }
      destruct (is_low_surrogate c); [discriminate |].
      destruct (is_high_surrogate c) eqn:Hh.
      { destruct rest as [|c2 rest']; [discriminate |].
        destruct (is_low_surrogate c2) eqn:Hl; [| discriminate].
        destruct (encodeURIComponent rest') as [e' |] eqn:E; [| discriminate].
        injection Henc as <-.
        cbn [forallb] in Hrest. apply andb_true_iff in Hrest as [_ Hrest'].
        rewrite forallb_app, percent_encode_safe.
        - apply (IH rest'); [cbn [List.length] in Hlen; lia | assumption | assumption].
        - unfold is_high_surrogate in Hh. unfold is_low_surrogate in Hl.
          apply andb_true_iff in Hh as [_ Hh]. apply andb_true_iff in Hl as [_ Hl].
          apply N.leb_le in Hh, Hl. lia. }
      destruct (encodeURIComponent rest) as [e' |] eqn:E; [| discriminate].
      injection Henc as <-.
      rewrite forallb_app, percent_encode_safe by lia.
      apply (IH rest); [lia | assumption | assumption]. }
  apply (H (List.length s)). lia.
Qed.

#[local] Opaque endpoint lit not_found_message warning_toast.

Section RequestFacts.

Variable network : jsstring -> settled Response.t.
Variable w : World.t.

Local Abbreviation barcode := (State.barcode (World.state w)).
Local Abbreviation out := (searchProducts network w).

Lemma requests_of_search :
  World.requests (snd out) = World.requests w ++ sent_for barcode.
Proof.
  unfold sent_for.
  handler_cases network w; rewrite ?app_nil_r; reflexivity.
Qed.

(** X11.  A barcode that after trimming holds only letters, digits and
    the marks [- _ . ! ~ * ' ( )] is sent as it is: the one request goes
    to the endpoint followed by the trimmed barcode. *)
Theorem searchProducts_sends_plain_barcode :
  truthy_string (trim barcode) = true ->
  forallb uri_unreserved (trim barcode) = true ->
  World.requests (snd out) = World.requests w ++ [endpoint ++ trim barcode].
Proof.
  intros Ht Hu. rewrite requests_of_search. unfold sent_for.
  now rewrite Ht, (encodeURIComponent_unreserved _ Hu).
Qed.

(** X12.  A barcode without surrogate code units is always sent: a
    search with it makes exactly one request. *)
Theorem searchProducts_sends_without_surrogates :
  truthy_string (trim barcode) = true ->
  forallb (fun c => negb (is_surrogate c)) barcode = true ->
  exists query : jsstring,
    encodeURIComponent (trim barcode) = Some query /\
    World.requests (snd out) = World.requests w ++ [endpoint ++ query].
Proof.
  intros Ht Hs. apply trim_forallb in Hs.
  destruct (encodeURIComponent_without_surrogates _ Hs) as (query & Hq).
  exists query. split; [exact Hq |].
  rewrite requests_of_search. unfold sent_for. now rewrite Ht, Hq.
Qed.

(** X13.  Whatever a barcode (a string of 16-bit code units) holds, the
    query of a request is made of unreserved characters and percent
    escapes only: every request made by
    a search is the endpoint followed by such a string, so a barcode
    cannot add a parameter or a fragment to the URL. *)
Theorem searchProducts_request_is_safe :
  well_formed barcode = true ->
  exists sent : list jsstring,
    World.requests (snd out) = World.requests w ++ sent /\
    Forall (fun url =>
              exists query : jsstring,
                url = endpoint ++ query /\ forallb uri_safe query = true)
           sent.
Proof.
  intros Hwf. rewrite requests_of_search.
  eexists. split; [reflexivity |]. unfold sent_for.
  destruct (truthy_string (trim barcode)); [| constructor].
  destruct (encodeURIComponent (trim barcode)) as [query |] eqn:Hq;
    [| constructor].
  repeat constructor. exists query. split; [reflexivity |].
  apply (encodeURIComponent_safe (trim barcode)); [| exact Hq].
  now apply trim_forallb.
Qed.

End RequestFacts.

(** * Further properties of the view *)

#[local] Transparent lit.

Lemma no_card_in_price_tiers_section (p : Product.t) :
  find_all (has_tag "Card") (price_tiers_section p) = [].
Proof.
  unfold price_tiers_section.
  destruct (Product.price_tiers p) as [| | l]; try reflexivity.
  destruct l as [|t l]; [reflexivity |].
  cbn -[formatPrice map_index slice0 more_tiers].
  rewrite find_none_in_tier_rows by reflexivity.
  unfold more_tiers. destruct (3 <? _)%nat; reflexivity.
Qed.

Lemma no_card_in_price_2_row (p : Product.t) :
  find_all (has_tag "Card") (price_2_row p) = [].
Proof.
  unfold price_2_row.
  destruct (Product.selling_price_2 p) as [| | x]; try reflexivity.
  destruct (truthy_number x); reflexivity.
Qed.

Lemma find_card_in_card (p : Product.t) (i : nat) :
  find_all (has_tag "Card") (product_card p i) = [product_card p i].
Proof.
  unfold product_card, price_row, stock_row.
  cbn -[formatPrice price_tiers_section price_2_row String.append toString].
  now rewrite no_card_in_price_tiers_section, no_card_in_price_2_row.
Qed.

Lemma find_cards_in_cards (i : nat) (ps : list Product.t) :
  flat_map (find_all (has_tag "Card")) (map_index product_card i ps) =
  map_index product_card i ps.
Proof.
  revert i. induction ps as [|p ps IH]; intros i; [reflexivity |].
  cbn [map_index flat_map]. now rewrite find_card_in_card, IH.
Qed.

Lemma find_cards_in_grid (ps : list Product.t) :
  find_all (has_tag "Card") (products_grid ps) = map_index product_card 0 ps.
Proof.
  unfold products_grid. destruct ps as [|p ps]; [reflexivity |].
  cbn -[map_index]. rewrite find_cards_in_cards. now rewrite !app_nil_r.
Qed.

Lemma product_cards_of_render (s : State.t) :
  product_cards (render s) = map_index product_card 0 (State.products s).
Proof.
  unfold product_cards, render, search_section, error_banner.
  destruct (truthy_string (State.error s)), (State.loading s);
    cbn -[find_all products_grid]; rewrite find_cards_in_grid;
    apply app_nil_r.
Qed.

Lemma banners_of_render (s : State.t) :
  banners s =
  match State.error s with
  | [] => []
  | _ :: _ => [error_banner (State.error s)]
  end.
Proof.
  unfold banners, render, search_section, error_banner.
  destruct (State.error s) as [|c e], (State.loading s); reflexivity.
Qed.

Lemma controls_of_render (s : State.t) :
  controls_disabled s =
  [Some (ABool (State.loading s)); Some (ABool (State.loading s))].
Proof.
  unfold controls_disabled, render, search_section, error_banner.
  destruct (truthy_string (State.error s)), (State.loading s); reflexivity.
Qed.

(** X14.  The grid of the view holds one card per product of the state,
    in list order, the card of product [i] built with index [i]; with no
    products it holds none. *)
Theorem render_product_cards (s : State.t) :
  product_cards (render s) = map_index product_card 0 (State.products s) /\
  List.length (product_cards (render s)) = List.length (State.products s).
Proof.
  rewrite product_cards_of_render. split; [reflexivity |].
  apply map_index_length.
Qed.

(** X15.  The view has an error banner exactly when the error message is
    not empty, and the banner shows that message. *)
Theorem render_error_banner (s : State.t) :
  vfind_all (has_vclass banner_class) (render s) =
  match State.error s with
  | [] => []
  | _ :: _ =>
      [ vel "Card" banner_class
          [ vel "CardContent" "p-6"
              [ vel "div" "flex items-center gap-2 text-destructive"
                  [ vel "AlertCircle" "h-5 w-5" [];
                    velement "span" [] [vtext (State.error s)] ] ] ] ]
  end.
Proof.
  unfold render, search_section, error_banner.
  destruct (State.error s) as [|c e], (State.loading s); reflexivity.
Qed.

(** X16.  The view has two controls, the input and the button; both are
    disabled exactly when the loading flag is on, and the button shows
    the spinner exactly then. *)
Theorem render_controls (s : State.t) :
  map (fun v => (tag_of v, disabled_of v)) (vfind_all is_control (render s)) =
    [ ("Input"%string, Some (ABool (State.loading s)));
      ("Button"%string, Some (ABool (State.loading s))) ] /\
  vfind_all (has_vtag "Loader2") (render s) =
    if State.loading s then [vel "Loader2" "h-4 w-4 animate-spin mr-2" []]
    else [].
Proof.
  unfold render, search_section, error_banner.
  destruct (truthy_string (State.error s)), (State.loading s);
    split; reflexivity.
Qed.

(** X17.  The card has a price tiers section exactly when [price_tiers]
    is an array that is not empty. *)
Theorem price_tiers_section_shown (p : Product.t) (index : nat) :
  find_all (has_class "border-t pt-3") (product_card p index) =
  match Product.price_tiers p with
  | value (_ :: _) => [price_tiers_section p]
  | value [] | undefined | null => []
  end.
Proof.
  assert (E2 : find_all (has_class "border-t pt-3") (price_2_row p) = []).
  { unfold price_2_row.
    destruct (Product.selling_price_2 p) as [| | x]; try reflexivity.
    destruct (truthy_number x); reflexivity. }
  unfold product_card, price_row, stock_row.
  cbn -[formatPrice price_tiers_section price_2_row String.append toString].
  rewrite E2. cbn [app].
  destruct (strict_eq_zero (Product.stock p)); cbn [app];
    unfold price_tiers_section;
    (destruct (Product.price_tiers p) as [| | l]; try reflexivity);
    (destruct l as [|t l]; [reflexivity |]);
    cbn -[formatPrice map_index slice0 more_tiers];
    (rewrite find_none_in_tier_rows by reflexivity);
    unfold more_tiers; destruct (3 <? _)%nat; reflexivity.
Qed.

#[local] Opaque endpoint lit not_found_message warning_toast.

Section ViewOfSearch.

Variable network : jsstring -> settled Response.t.
Variable w : World.t.

Local Abbreviation barcode := (State.barcode (World.state w)).
Local Abbreviation out := (searchProducts network w).

(** X18.  While a search runs the user cannot start another from the
    view: in every state the search produces before it completes the
    input and the button are disabled; once it has completed they are
    enabled again. *)
Theorem search_disables_controls :
  truthy_string (trim barcode) = true ->
  (fst out = Normal tt ->
   Forall (fun s => controls_disabled s = [Some (ABool true); Some (ABool true)])
     (removelast (new_states w (snd out))) /\
   controls_disabled (World.state (snd out)) =
     [Some (ABool false); Some (ABool false)]) /\
  (fst out = Suspended ->
   Forall (fun s => controls_disabled s = [Some (ABool true); Some (ABool true)])
     (new_states w (snd out)) /\
   controls_disabled (World.state (snd out)) =
     [Some (ABool true); Some (ABool true)]).
Proof.
  intros Ht.
  destruct (searchProducts_states network w Ht) as (l & -> & _ & _ & Hn & Hs).
  assert (F : forall l', Forall (fun s => State.loading s = true) l' ->
              Forall (fun s => controls_disabled s =
                               [Some (ABool true); Some (ABool true)]) l').
  { intros l' H. eapply Forall_impl; [| exact H].
    intros s Hl. cbv beta in Hl. now rewrite controls_of_render, Hl. }
  split; intros Hc.
  - destruct (Hn Hc) as (H1 & _ & H3). split; [now apply F |].
    now rewrite controls_of_render, H3.
  - destruct (Hs Hc) as (H1 & H2). split; [now apply F |].
    now rewrite controls_of_render, H2.
Qed.

(** X19.  The view a search leaves never shows an error banner together
    with product cards. *)
Theorem search_view_exclusive :
  truthy_string (trim barcode) = true ->
  banners (World.state (snd out)) = [] \/
  product_cards (render (World.state (snd out))) = [].
Proof.
  intros Ht.
  destruct (searchProducts_states network w Ht) as (l & _ & _ & (_ & H) & _).
  rewrite banners_of_render, product_cards_of_render.
  destruct H as [-> | ->]; [now left | now right].
Qed.

(** X20.  After a 2xx response with a non-empty [products] array the view
    shows one card per returned product, in the returned order, no error
    banner, and enabled controls. *)
Theorem search_success_view (query : jsstring) (r : Response.t)
    (data : ApiResponse.t) (ps : list Product.t) :
  truthy_string (trim barcode) = true ->
  encodeURIComponent (trim barcode) = Some query ->
  network (endpoint ++ query) = Fulfilled r ->
  Response.ok r = true ->
  Response.json r = Fulfilled (JsonObject data) ->
  ApiResponse.products data = value ps ->
  ps <> [] ->
  product_cards (render (World.state (snd out))) = map_index product_card 0 ps /\
  banners (World.state (snd out)) = [] /\
  controls_disabled (World.state (snd out)) =
    [Some (ABool false); Some (ABool false)].
Proof.
  intros Ht Hq Hn Hok Hj Hp Hne.
  rewrite product_cards_of_render, banners_of_render, controls_of_render.
  unfold_handler. step Ht. step Hq. step Hn. step Hok. step Hj. step Hp.
  destruct ps; [congruence |]. simpl. auto.
Qed.

(** X21.  After a response whose status is outside 200-299 the view shows
    the banner with the HTTP error message and no product card. *)
Theorem search_http_error_view (query : jsstring) (r : Response.t) :
  truthy_string (trim barcode) = true ->
  encodeURIComponent (trim barcode) = Some query ->
  network (endpoint ++ query) = Fulfilled r ->
  Response.ok r = false ->
  banners (World.state (snd out)) =
    [error_banner (http_error_message (Response.status r))] /\
  product_cards (render (World.state (snd out))) = [].
Proof.
  intros Ht Hq Hn Hok.
  rewrite product_cards_of_render, banners_of_render.
  unfold_handler. step Ht. step Hq. step Hn. step Hok.
  split; reflexivity.
Qed.

End ViewOfSearch.

End Engine.

(** * The properties at the sample data *)

Lemma searchProducts_blank_barcode_witness :
  trim (lit "   ") = [] /\
  searchProducts sample_network (after_earlier_search "   ") =
  (Normal tt,
   World.make (World.state (after_earlier_search "   ")) []
     [warning_toast] []).
Proof.
  split; [reflexivity |].
  apply (searchProducts_blank_barcode sample_network
           (after_earlier_search "   ")).
  reflexivity.
Defined.

Lemma searchProducts_populates_list_witness :
  let out := searchProducts sample_network (after_earlier_search " bir bintang ") in
  fst out = Normal tt /\
  State.products (World.state (snd out)) = [bintang; anker] /\
  State.error (World.state (snd out)) = [].
Proof.
  apply (@searchProducts_populates_list sample_network
           (after_earlier_search " bir bintang ") (lit "bir%20bintang")
           (Response.make 200
              (Fulfilled
                 (JsonObject
                    (ApiResponse.make (lit "success") (value [bintang; anker])))))
           eq_refl eq_refl eq_refl
           (ApiResponse.make (lit "success") (value [bintang; anker]))
           [bintang; anker] eq_refl eq_refl eq_refl).
  discriminate.
Defined.

Lemma searchProducts_http_error_witness :
  let out := searchProducts sample_network (after_earlier_search "broken") in
  fst out = Normal tt /\
  State.products (World.state (snd out)) = [] /\
  State.loading (World.state (snd out)) = false /\
  State.error (World.state (snd out)) = http_error_message 503 /\
  truthy_string (State.error (World.state (snd out))) = true /\
  exists code : string,
    option_map N.of_uint (NilZero.uint_of_string code) = Some 503%N /\
    includes (State.error (World.state (snd out))) (lit code) = true.
Proof.
  apply (@searchProducts_http_error sample_network
           (after_earlier_search "broken") (lit "broken")
           (Response.make 503
              (Fulfilled (JsonObject (ApiResponse.make (lit "success") null))))
           eq_refl eq_refl eq_refl eq_refl).
Defined.

Lemma searchProducts_empty_array_witness :
  let out := searchProducts sample_network (after_earlier_search "none") in
  fst out = Normal tt /\
  State.products (World.state (snd out)) = [] /\
  State.error (World.state (snd out)) = not_found_message.
Proof.
  apply (@searchProducts_empty_array sample_network
           (after_earlier_search "none") (lit "none")
           (Response.make 200
              (Fulfilled
                 (JsonObject (ApiResponse.make (lit "success") (value [])))))
           eq_refl eq_refl eq_refl
           (ApiResponse.make (lit "success") (value []))
           eq_refl eq_refl eq_refl).
Defined.

Lemma searchProducts_missing_products_witness :
  let out := searchProducts sample_network (after_earlier_search "missing") in
  fst out = Normal tt /\
  State.products (World.state (snd out)) = [] /\
  State.error (World.state (snd out)) = not_found_message /\
  forall (network' : jsstring -> settled Response.t) (empty : ApiResponse.t),
    ApiResponse.products empty = value [] ->
    network' (endpoint ++ lit "missing") =
      Fulfilled (Response.make 200 (Fulfilled (JsonObject empty))) ->
    searchProducts network' (after_earlier_search "missing") = out.
Proof.
  apply (@searchProducts_missing_products sample_network
           (after_earlier_search "missing") (lit "missing")
           (Response.make 200
              (Fulfilled
                 (JsonObject (ApiResponse.make (lit "success") undefined))))
           eq_refl eq_refl eq_refl
           (JsonObject (ApiResponse.make (lit "success") undefined))
           eq_refl eq_refl (or_introl eq_refl)).
Defined.

(** C10 as stated fails: the JSON body [null] has no [products] field,
    and for it the handler does not take the branch of the empty array.
    Reading [data.products] throws, the [catch] block sets the message of
    the [TypeError] and the toast is the one of a failed search. *)
Lemma searchProducts_null_body_counterexample :
  Response.ok (Response.make 200 (Fulfilled JsonNull)) = true /\
  get_products JsonNull = None /\
  fst (searchProducts null_body_network (after_earlier_search "missing")) =
    Normal tt /\
  State.error
    (World.state
       (snd (searchProducts null_body_network (after_earlier_search "missing"))))
    = TypeError_message /\
  State.error
    (World.state
       (snd (searchProducts null_body_network (after_earlier_search "missing"))))
    <> not_found_message /\
  World.toasts
    (snd (searchProducts null_body_network (after_earlier_search "missing")))
    = [Toast.make (lit "Search failed") TypeError_message
         (Some (lit "destructive"))].
Proof.
  repeat split; try reflexivity. vm_compute. discriminate.
Qed.

Lemma searchProducts_resets_and_clears_loading_witness :
  let w := after_earlier_search "broken" in
  let out := searchProducts sample_network w in
  (exists rest : list State.t,
     World.history (snd out) =
     World.history w ++
     [ State.make (lit "broken") [anker] true (lit "HTTP error! status: 500");
       State.make (lit "broken") [anker] true [];
       reset_state (World.state w) ] ++ rest) /\
  (fst out = Normal tt /\
   State.loading (World.state (snd out)) = false
   \/
   fst out = Suspended /\
   exists query : jsstring,
     encodeURIComponent (trim (lit "broken")) = Some query /\
     (sample_network (endpoint ++ query) = NeverSettles \/
      exists r : Response.t,
        sample_network (endpoint ++ query) = Fulfilled r /\
        Response.ok r = true /\
        Response.json r = NeverSettles)).
Proof.
  apply (@searchProducts_resets_and_clears_loading sample_network
           (after_earlier_search "broken") eq_refl).
Defined.


(** C7 as stated fails on an engine whose currency data has the two minor
    digits of ISO 4217: 1234.5 is written with one fraction digit. *)
Lemma formatPrice_half_counterexample :
  formatPrice Intl.ISO_4217 (Num (2469 # 2)) =
    lit "Rp" ++ [Intl.no_break_space] ++ lit "1.234,5" /\
  fraction_digits (formatPrice Intl.ISO_4217 (Num (2469 # 2))) <> 0%nat.
Proof.
  split; [vm_compute; reflexivity | vm_compute; discriminate].
Qed.

(** On an engine whose data has no fraction digits for the currency the
    same value is rounded to an integer. *)
Example formatPrice_half_without_fraction :
  formatPrice Intl.without_fraction (Num (2469 # 2)) =
    lit "Rp" ++ [Intl.no_break_space] ++ lit "1.235".
Proof. vm_compute. reflexivity. Qed.

(** The double 1e23 is written from its decimal 1e23, and 1.005 from its
    decimal 1.005. *)
Example formatPrice_1e23 :
  formatPrice Intl.ISO_4217 (Num (inject_Z (10 ^ 23))) =
    lit "Rp" ++ [Intl.no_break_space] ++
    lit "100.000.000.000.000.000.000.000".
Proof. vm_compute. reflexivity. Qed.

Example formatPrice_1_005 :
  formatPrice Intl.ISO_4217 (Num (1005 # 1000)) =
    lit "Rp" ++ [Intl.no_break_space] ++ lit "1,01".
Proof. vm_compute. reflexivity. Qed.

Example formatPrice_not_finite :
  formatPrice Intl.ISO_4217 NaN = lit "RpNaN" /\
  formatPrice Intl.ISO_4217 (Infinity false) = lit "Rp" ++ [8734%N] /\
  formatPrice Intl.ISO_4217 (Infinity true) = lit "-Rp" ++ [8734%N].
Proof. repeat split. Qed.

(** A search that never gets an answer leaves the loading flag on. *)
Example searchProducts_suspended :
  let out :=
    searchProducts (fun _ => NeverSettles) (after_earlier_search "broken") in
  fst out = Suspended /\ State.loading (World.state (snd out)) = true.
Proof. split; reflexivity. Qed.

(** A barcode with a lone surrogate is never sent: [encodeURIComponent]
    throws inside the [try] block. *)
Example searchProducts_lone_surrogate :
  let w := World.start (State.make [55357%N] [] false []) in
  snd (searchProducts sample_network w) =
  World.make (State.make [55357%N] [] false URIError_message)
    [ State.make [55357%N] [] true [];
      State.make [55357%N] [] true [];
      State.make [55357%N] [] true [];
      State.make [55357%N] [] true URIError_message;
      State.make [55357%N] [] false URIError_message ]
    [ Toast.make (lit "Search failed") URIError_message
        (Some (lit "destructive")) ]
    [].
Proof. reflexivity. Qed.

(** The request carries the trimmed barcode, percent-encoded. *)
Example searchProducts_request :
  World.requests
    (snd (searchProducts sample_network (after_earlier_search " bir bintang ")))
  = [lit "https://hw.blicyber.web.id/admin/products/barcode?barcode=bir%20bintang"].
Proof. reflexivity. Qed.

(** React shows a falsy [selling_price_2] of 0 as the text 0, not as a
    row. *)
Example price_2_row_zero : price_2_row Intl.ISO_4217 bintang = num (Num 0).
Proof. reflexivity. Qed.

Lemma searchProducts_fetch_rejected_witness :
  let out := searchProducts sample_network (after_earlier_search "offline") in
  fst out = Normal tt /\
  World.state (snd out) =
    State.make (lit "offline") [] false (lit "Failed to fetch") /\
  World.toasts (snd out) =
    [Toast.make (lit "Search failed") (lit "Failed to fetch")
       (Some (lit "destructive"))].
Proof.
  apply (@searchProducts_fetch_rejected sample_network
           (after_earlier_search "offline") (lit "offline")
           (ErrorObject (lit "Failed to fetch")) eq_refl eq_refl eq_refl).
Defined.

Lemma searchProducts_json_rejected_witness :
  let out := searchProducts unreadable_network (after_earlier_search "offline") in
  fst out = Normal tt /\
  World.state (snd out) =
    State.make (lit "offline") [] false
      (lit "Unexpected token < in JSON at position 0") /\
  World.toasts (snd out) =
    [Toast.make (lit "Search failed")
       (lit "Unexpected token < in JSON at position 0")
       (Some (lit "destructive"))].
Proof.
  apply (@searchProducts_json_rejected unreadable_network
           (after_earlier_search "offline") (lit "offline")
           (Response.make 200
              (Rejected
                 (ErrorObject (lit "Unexpected token < in JSON at position 0"))))
           (ErrorObject (lit "Unexpected token < in JSON at position 0"))
           eq_refl eq_refl eq_refl eq_refl eq_refl).
Defined.

Lemma searchProducts_one_toast_witness :
  let out := searchProducts sample_network (after_earlier_search " bir bintang ") in
  exists t : Toast.t,
    World.toasts (snd out) = [t] /\
    (State.products (World.state (snd out)) <> [] /\
     State.error (World.state (snd out)) = [] /\
     Toast.variant t = None /\
     Toast.description t =
       lit ("Found " ++
            toString (N.of_nat (List.length (State.products (World.state (snd out)))))
            ++ " product(s)")%string
     \/
     State.products (World.state (snd out)) = [] /\
     Toast.variant t = Some (lit "destructive") /\
     Toast.description t = State.error (World.state (snd out))).
Proof.
  apply (@searchProducts_one_toast sample_network
           (after_earlier_search " bir bintang ") eq_refl eq_refl).
Defined.

Lemma searchProducts_invariant_witness :
  let w := after_earlier_search "broken" in
  let out := searchProducts sample_network w in
  Forall (search_invariant (lit "broken")) (tl (new_states w (snd out))) /\
  search_invariant (lit "broken") (World.state (snd out)).
Proof.
  apply (@searchProducts_invariant sample_network
           (after_earlier_search "broken") eq_refl).
Defined.

Lemma searchProducts_loading_throughout_witness :
  let w := after_earlier_search "broken" in
  let out := searchProducts sample_network w in
  (fst out = Normal tt ->
   Forall (fun s => State.loading s = true)
     (removelast (new_states w (snd out))) /\
   last (new_states w (snd out)) (World.state w) = World.state (snd out)) /\
  (fst out = Suspended ->
   Forall (fun s => State.loading s = true) (new_states w (snd out)) /\
   State.loading (World.state (snd out)) = true).
Proof.
  apply (@searchProducts_loading_throughout sample_network
           (after_earlier_search "broken") eq_refl).
Defined.

Lemma searchProducts_forgets_earlier_search_witness :
  let w1 := after_earlier_search " bir bintang " in
  let w2 := World.start (State.make (lit " bir bintang ") [] true []) in
  fst (searchProducts sample_network w1) = fst (searchProducts sample_network w2) /\
  World.state (snd (searchProducts sample_network w1)) =
  World.state (snd (searchProducts sample_network w2)).
Proof.
  apply (@searchProducts_forgets_earlier_search sample_network
           (after_earlier_search " bir bintang ")
           (World.start (State.make (lit " bir bintang ") [] true []))
           eq_refl eq_refl).
Defined.

Lemma searchProducts_sends_plain_barcode_witness :
  let w := after_earlier_search " 8991234500017 " in
  World.requests (snd (searchProducts sample_network w)) =
  [endpoint ++ lit "8991234500017"].
Proof.
  apply (@searchProducts_sends_plain_barcode sample_network
           (after_earlier_search " 8991234500017 ") eq_refl eq_refl).
Defined.

Lemma searchProducts_sends_without_surrogates_witness :
  let w := after_earlier_search " bir bintang " in
  exists query : jsstring,
    encodeURIComponent (trim (lit " bir bintang ")) = Some query /\
    World.requests (snd (searchProducts sample_network w)) =
    [endpoint ++ query].
Proof.
  apply (@searchProducts_sends_without_surrogates sample_network
           (after_earlier_search " bir bintang ") eq_refl eq_refl).
Defined.

Lemma searchProducts_request_is_safe_witness :
  let w := after_earlier_search "a&b=c#d" in
  exists sent : list jsstring,
    World.requests (snd (searchProducts sample_network w)) = [] ++ sent /\
    Forall (fun url =>
              exists query : jsstring,
                url = endpoint ++ query /\ forallb uri_safe query = true)
           sent.
Proof.
  apply (@searchProducts_request_is_safe sample_network
           (after_earlier_search "a&b=c#d") eq_refl).
Defined.

Lemma search_disables_controls_witness :
  let w := after_earlier_search "broken" in
  let out := searchProducts sample_network w in
  (fst out = Normal tt ->
   Forall (fun s => controls_disabled Intl.ISO_4217 s = [Some (ABool true); Some (ABool true)])
     (removelast (new_states w (snd out))) /\
   controls_disabled Intl.ISO_4217 (World.state (snd out)) =
     [Some (ABool false); Some (ABool false)]) /\
  (fst out = Suspended ->
   Forall (fun s => controls_disabled Intl.ISO_4217 s = [Some (ABool true); Some (ABool true)])
     (new_states w (snd out)) /\
   controls_disabled Intl.ISO_4217 (World.state (snd out)) =
     [Some (ABool true); Some (ABool true)]).
Proof.
  apply (@search_disables_controls Intl.ISO_4217 sample_network
           (after_earlier_search "broken") eq_refl).
Defined.

Lemma search_view_exclusive_witness :
  let out := searchProducts sample_network (after_earlier_search " bir bintang ") in
  banners Intl.ISO_4217 (World.state (snd out)) = [] \/
  product_cards (render Intl.ISO_4217 (World.state (snd out))) = [].
Proof.
  apply (@search_view_exclusive Intl.ISO_4217 sample_network
           (after_earlier_search " bir bintang ") eq_refl).
Defined.

Lemma search_success_view_witness :
  let out := searchProducts sample_network (after_earlier_search " bir bintang ") in
  product_cards (render Intl.ISO_4217 (World.state (snd out))) =
    [product_card Intl.ISO_4217 bintang 0; product_card Intl.ISO_4217 anker 1] /\
  banners Intl.ISO_4217 (World.state (snd out)) = [] /\
  controls_disabled Intl.ISO_4217 (World.state (snd out)) =
    [Some (ABool false); Some (ABool false)].
Proof.
  apply (@search_success_view Intl.ISO_4217 sample_network
           (after_earlier_search " bir bintang ") (lit "bir%20bintang")
           (Response.make 200
              (Fulfilled
                 (JsonObject
                    (ApiResponse.make (lit "success") (value [bintang; anker])))))
           (ApiResponse.make (lit "success") (value [bintang; anker]))
           [bintang; anker] eq_refl eq_refl eq_refl eq_refl eq_refl eq_refl).
  discriminate.
Defined.

Lemma search_http_error_view_witness :
  let out := searchProducts sample_network (after_earlier_search "broken") in
  banners Intl.ISO_4217 (World.state (snd out)) = [error_banner (http_error_message 503)] /\
  product_cards (render Intl.ISO_4217 (World.state (snd out))) = [].
Proof.
  apply (@search_http_error_view Intl.ISO_4217 sample_network
           (after_earlier_search "broken") (lit "broken")
           (Response.make 503
              (Fulfilled (JsonObject (ApiResponse.make (lit "success") null))))
           eq_refl eq_refl eq_refl eq_refl).
Defined.
